(** * Video downloader page ([views/video_downloader.py])

    A shallow embedding of the decision logic of the downloader page:
    the folder provisioner [ensure_folder_exists], the format resolver
    [get_format_string], the info fetcher [fetch_video_info], the
    download orchestrator [download_video] and the loop of [main] that
    builds the resolution picker.

    The Python code is effectful: it logs, it touches the file system and
    it calls the extraction library (yt-dlp), any of which may raise.
    Effects are threaded through a small state-and-exception monad over a
    [world]; the extraction library is an interface ([YoutubeDL]) whose
    behaviour is a parameter of the development. *)

From Stdlib Require Import ZArith String Ascii.
From stdpp Require Import gmap strings list fin_maps pretty.

Local Open Scope Z_scope.
Local Open Scope string_scope.

(** ** Python values

    The values that reach the code as a format selector ([itag]) or that
    sit in the fields of a format descriptor: [None], booleans, integers
    and strings. *)

Inductive pyval : Type :=
  | PyNone
  | PyBool (b : bool)
  | PyInt (z : Z)
  | PyStr (s : string).

#[global] Instance pyval_eq_dec : EqDecision pyval.
Proof. solve_decision. Defined.

(** Truth value of an object, as tested by [if], [and] and [or]. *)
Definition truthy (v : pyval) : bool :=
  match v with
  | PyNone => false
  | PyBool b => b
  | PyInt z => negb (z =? 0)%Z
  | PyStr s => negb (String.eqb s EmptyString)
  end.

(** [a or b]: the first operand when it is truthy, else the second. *)
Definition py_or (a b : pyval) : pyval := if truthy a then a else b.

(** [a == b] on these values.  A boolean is an integer ([True == 1]);
    [None] and strings are only equal to themselves. *)
Definition py_eqb (a b : pyval) : bool :=
  match a, b with
  | PyNone, PyNone => true
  | PyStr s, PyStr t => String.eqb s t
  | PyInt x, PyInt y => (x =? y)%Z
  | PyInt x, PyBool c => (x =? Z.b2z c)%Z
  | PyBool c, PyInt y => (Z.b2z c =? y)%Z
  | PyBool c, PyBool d => Bool.eqb c d
  | _, _ => false
  end.

(** [d.get(k, default)] for a dictionary with string keys. *)
Definition dict_get {V : Type} (d : gmap string V) (k : string) (dflt : V) : V :=
  default dflt (d !! k).

(** [d.get(k, default)] for a dictionary whose keys are integers and a key
    [k] of any of the types above: an integer is looked up as itself, a
    boolean as 0 or 1, and nothing else equals an integer key. *)
Definition int_dict_get {V : Type} (d : gmap Z V) (k : pyval) (dflt : V) : V :=
  match k with
  | PyInt z => default dflt (d !! z)
  | PyBool b => default dflt (d !! Z.b2z b)
  | PyNone | PyStr _ => dflt
  end.

(** ** Constants *)

Definition USER_AGENT : string :=
  "Mozilla/5.0 (Windows NT 10.0; Win64; x64) " +:+
  "AppleWebKit/537.36 (KHTML, like Gecko) " +:+
  "Chrome/58.0.3029.110 Safari/537.36".

Definition HEADERS : gmap string string :=
  {[ "User-Agent" := USER_AGENT ]}.

Definition DOWNLOAD_FOLDERS : gmap string string :=
  <["YouTube" := "youtube_video"]>
  (<["YouTube Shorts" := "youtube_shorts"]>
  (<["X" := "x_video"]>
  (<["Facebook" := "facebook_video"]>
  (<["Instagram" := "instagram_video"]>
  (<["TikTok" := "tiktok_video"]> ∅))))).

Definition DEFAULT_FILE_NAME : string := "Untitled.mp4".

(** ** Format resolver *)

Definition format_map : gmap Z string :=
  <[18 := "18"]> (<[22 := "22"]> (<[37 := "37"]> ∅)).

Definition get_format_string (itag : pyval) : string :=
  int_dict_get format_map itag "best".

(** ** Exceptions and results

    An [exc] is an instance of [Exception], the class both [except]
    clauses of the page are written for ([KeyboardInterrupt] and
    [SystemExit] are not instances of it and are outside the model).
    Only the distinction drawn by the clauses matters: whether the
    exception is yt-dlp's [DownloadError] or something else.
    [exc_str e] is [str(e)]. *)

Inductive exc_class : Type :=
  | DownloadError
  | OSError
  | OtherException.

Record exc : Type := Exc { exc_class_of : exc_class; exc_str : string }.

Definition is_DownloadError (e : exc) : bool :=
  match exc_class_of e with
  | DownloadError => true
  | OSError | OtherException => false
  end.

Inductive result (A : Type) : Type :=
  | Ok (a : A)
  | Raise (e : exc).
Arguments Ok {A} a.
Arguments Raise {A} e.

(** ** The extraction library

    A [YoutubeDL] object is configured with an options dictionary and
    offers [extract_info(url, download=...)] and [download(urls)].  What
    they answer is not decided by this repository, so both are fields of
    an interface.  [ydl_download] sees the paths that exist, and answers
    with the exception it raises (if any) and the paths of the files it
    wrote, also when it raises: a failed download may leave a partial
    file behind. *)

Inductive optval : Type :=
  | OBool (b : bool)
  | OStr (s : string)
  | OHeaders (h : gmap string string).

(** A format descriptor: one entry of [info_dict['formats']]. *)
Abbreviation format_dict := (gmap string pyval).
Abbreviation ydl_opts_t := (gmap string optval).

(** The answer of [extract_info]; [info_formats] is [None] when the
    dictionary has no ['formats'] key. *)
Record info_dict : Type := InfoDict { info_formats : option (list format_dict) }.

Record YoutubeDL : Type := {
  ydl_extract_info : ydl_opts_t → string → bool → result info_dict;
  ydl_download : ydl_opts_t → list string → gset string → option exc * gset string
}.

(** ** The world

    [w_fs] is the set of paths that exist, [w_mkdir_error] the paths at
    which the operating system refuses to create a directory, with the
    message of the [OSError] it raises.  [w_log] collects the records
    handed to the logger and [w_calls] the calls made to the extraction
    library, both oldest first.  A [CallDownload] also keeps the paths
    that existed when the call was made. *)

Inductive log_level : Type := DEBUG | ERROR.

Inductive ydl_call : Type :=
  | CallExtractInfo (opts : ydl_opts_t) (url : string) (download : bool)
  | CallDownload (opts : ydl_opts_t) (urls : list string) (fs_before : gset string).

Record world : Type := World {
  w_fs : gset string;
  w_mkdir_error : gmap string string;
  w_log : list (log_level * string);
  w_calls : list ydl_call
}.

(** ** State and exception monad

    A computation takes a world and gives a value or a raised exception,
    together with the world it leaves.  The effects made before an
    exception is raised stay. *)

Definition M (A : Type) : Type := world → result A * world.

#[global] Instance M_ret : MRet M := λ A a w, (Ok a, w).

#[global] Instance M_bind : MBind M := λ A B f m w,
  match m w with
  | (Ok a, w') => f a w'
  | (Raise e, w') => (Raise e, w')
  end.

Definition raise {A : Type} (e : exc) : M A := λ w, (Raise e, w).

(** [try: body except Exception as e: handler(e)] *)
Definition try_except {A : Type} (body : M A) (handler : exc → M A) : M A := λ w,
  match body w with
  | (Ok a, w') => (Ok a, w')
  | (Raise e, w') => handler e w'
  end.

Definition add_log (level : log_level) (msg : string) (w : world) : world :=
  World (w_fs w) (w_mkdir_error w) (w_log w ++ [(level, msg)]) (w_calls w).

Definition logger_debug (msg : string) : M unit := λ w, (Ok (), add_log DEBUG msg w).

Definition logger_error (msg : string) : M unit := λ w, (Ok (), add_log ERROR msg w).

(** [str(v)], as an f-string formats a value. *)
Definition py_str (v : pyval) : string :=
  match v with
  | PyNone => "None"
  | PyBool true => "True"
  | PyBool false => "False"
  | PyInt z => pretty z
  | PyStr s => s
  end.

(** ** The [os] functions the page uses (POSIX) *)

Module os.

Fixpoint ends_with_slash (s : string) : bool :=
  match s with
  | EmptyString => false
  | String c EmptyString => Ascii.eqb c "/"
  | String _ s' => ends_with_slash s'
  end.

(** [os.path.join(a, b)]: an absolute [b] replaces [a]; otherwise the two
    are put together with one separator, unless [a] is empty or already
    ends with one. *)
Definition path_join (a b : string) : string :=
  if String.prefix "/" b then b
  else if String.eqb a EmptyString || ends_with_slash a then a +:+ b
  else a +:+ "/" +:+ b.

(** The directories above a path: its prefixes that stop in front of a
    separator. *)
Fixpoint parents_from (pre rest : string) : list string :=
  match rest with
  | EmptyString => []
  | String c rest' =>
      (if Ascii.eqb c "/" && negb (String.eqb pre EmptyString) && negb (ends_with_slash pre)
       then [pre] else [])
      ++ parents_from (pre +:+ String c EmptyString) rest'
  end.

Definition parents (p : string) : list string := parents_from EmptyString p.

(** [os.path.exists(p)] *)
Definition path_exists (p : string) : M bool := λ w,
  (Ok (bool_decide (p ∈ w_fs w)), w).

(** [os.makedirs(p)]: creates [p] and the directories above it.  It
    raises [OSError] for the empty path, for a path that exists, and
    where the operating system refuses; nothing is created then. *)
Definition makedirs (p : string) : M unit := λ w,
  if String.eqb p EmptyString then
    (Raise (Exc OSError "[Errno 2] No such file or directory: ''"), w)
  else if bool_decide (p ∈ w_fs w) then
    (Raise (Exc OSError ("[Errno 17] File exists: '" +:+ p +:+ "'")), w)
  else
    match w_mkdir_error w !! p with
    | Some msg => (Raise (Exc OSError msg), w)
    | None =>
        (Ok (), World (w_fs w ∪ list_to_set (parents p) ∪ {[ p ]})
                      (w_mkdir_error w) (w_log w) (w_calls w))
    end.

End os.

(** ** Folder provisioner *)

Definition ensure_folder_exists (folder : string) : M unit :=
  found ← os.path_exists folder;
  if negb found then
    logger_debug ("Folder '" +:+ folder +:+ "' does not exist. Creating folder.");;
    os.makedirs folder
  else
    logger_debug ("Folder '" +:+ folder +:+ "' already exists.").

(** ** Results handed to the page

    [{"success": True, "formats": formats}] and [{"error": msg}] for the
    info fetcher, [{"success": True, "file_path": p}] and
    [{"error": msg}] for the orchestrator.  The page tells them apart by
    the presence of the ["error"] key. *)

Inductive fetch_result : Type :=
  | FetchSuccess (formats : list format_dict)
  | FetchError (error : string).

Inductive download_result : Type :=
  | DownloadSuccess (file_path : string)
  | DownloadFailure (error : string).

Section Page.

Context (ydl : YoutubeDL).

(** [with YoutubeDL(opts) as ydl: ydl.extract_info(url, download=d)] *)
Definition YoutubeDL_extract_info (opts : ydl_opts_t) (url : string) (d : bool)
  : M info_dict := λ w,
  (ydl_extract_info ydl opts url d,
   World (w_fs w) (w_mkdir_error w) (w_log w)
         (w_calls w ++ [CallExtractInfo opts url d])).

(** [with YoutubeDL(opts) as ydl: ydl.download(urls)] *)
Definition YoutubeDL_download (opts : ydl_opts_t) (urls : list string)
  : M unit := λ w,
  let '(raised, written) := ydl_download ydl opts urls (w_fs w) in
  (match raised with Some e => Raise e | None => Ok () end,
   World (w_fs w ∪ written) (w_mkdir_error w) (w_log w)
         (w_calls w ++ [CallDownload opts urls (w_fs w)])).

(** ** Info fetcher *)

Definition fetch_video_info (url : string) : M fetch_result :=
  try_except
    (let ydl_opts : ydl_opts_t :=
       <["quiet" := OBool true]> (<["http_headers" := OHeaders HEADERS]> ∅) in
     info ← YoutubeDL_extract_info ydl_opts url false;
     let formats := default [] (info_formats info) in
     mret (FetchSuccess formats))
    (λ e,
      logger_error ("Exception in fetch_video_info: " +:+ exc_str e);;
      mret (FetchError (exc_str e))).

(** ** Download orchestrator *)

Definition download_video (url platform : string) (itag : pyval)
  : M download_result :=
  try_except
    (logger_debug ("Downloading " +:+ platform +:+ " video from URL: " +:+ url
                   +:+ " with itag: " +:+ py_str itag);;
     let download_folder := dict_get DOWNLOAD_FOLDERS platform "downloads" in
     ensure_folder_exists download_folder;;
     let file_path := os.path_join download_folder DEFAULT_FILE_NAME in
     let ydl_opts : ydl_opts_t :=
       <["outtmpl" := OStr file_path]>
       (<["quiet" := OBool false]>
       (<["headers" := OHeaders HEADERS]> ∅)) in
     let ydl_opts : ydl_opts_t :=
       if bool_decide (platform ∈ ["YouTube"; "YouTube Shorts"]) && truthy itag
       then <["format" := OStr (get_format_string itag)]> ydl_opts
       else <["format" := OStr "best"]> ydl_opts in
     YoutubeDL_download ydl_opts [url];;
     logger_debug (platform +:+ " video downloaded successfully to " +:+ file_path);;
     mret (DownloadSuccess file_path))
    (λ e,
      if is_DownloadError e then
        logger_error ("Download error: " +:+ exc_str e);;
        mret (DownloadFailure ("Download error: " +:+ exc_str e))
      else
        logger_error ("Exception in download_video: " +:+ exc_str e);;
        mret (DownloadFailure ("Exception in download_video: " +:+ exc_str e))).

End Page.

(** ** The resolution picker of [main]

    [available_itags] is a dictionary from format identifier to display
    text, filled in the order of the formats; assigning to a key that is
    already there keeps its place and replaces its text. *)

Fixpoint pydict_set (d : list (pyval * pyval)) (k v : pyval) : list (pyval * pyval) :=
  match d with
  | [] => [(k, v)]
  | (k', v') :: d' =>
      if py_eqb k' k then (k', v) :: d' else (k', v') :: pydict_set d' k v
  end.

Definition available_itags (formats : list format_dict) : list (pyval * pyval) :=
  foldl (λ d f,
           match f !! "format_id" with
           | Some format_id =>
               let resolution :=
                 py_or (default PyNone (f !! "resolution"))
                       (py_or (default PyNone (f !! "format_note")) (PyStr "unknown")) in
               pydict_set d format_id resolution
           | None => d
           end)
        [] formats.

(** [list(available_itags.keys())], the options of the radio button. *)
Definition radio_options (formats : list format_dict) : list pyval :=
  (available_itags formats).*1.

(** [d[k]]: the value filed under the key equal to [k]; [None] stands for
    [KeyError]. *)
Fixpoint pydict_get (d : list (pyval * pyval)) (k : pyval) : option pyval :=
  match d with
  | [] => None
  | (k', v) :: d' => if py_eqb k' k then Some v else pydict_get d' k
  end.

(** ** The page: [main]

    Streamlit runs [main] once per interaction.  What the user did is a
    [session]: the option picked in each widget (by position; a widget
    answers with its first option when the position is out of range),
    the text typed, whether the button was pressed.  [file_read] is what
    [open(path, "rb").read()] answers, given the paths that exist.

    Every [st.*] call is recorded, in order, as an [st_event]; the calls
    are taken to return.  The label of the download button is left out
    of its event. *)

Record session : Type := {
  chosen_platform : nat;
  typed_url : string;
  chosen_resolution : nat;
  download_pressed : bool;
  file_read : gset string → string → result string
}.

Inductive st_event : Type :=
  | StTitle (body : string)
  | StWrite (body : string)
  | StSelectbox (label : string) (options : list string)
  | StTextInput (label : string)
  | StInfo (body : string)
  | StSpinner (text : string)
  | StError (body : string)
  | StWarning (body : string)
  | StRadio (label : string) (options : list pyval) (labels : list pyval)
  | StButton (label : string)
  | StSuccess (body : string)
  | StBalloons
  | StVideo (data : string)
  | StDownloadButton (data : string) (file_name : string) (mime : string).

(** Computations of the page: those of [M], with the record of the
    [st.*] calls as further state. *)
Definition P (A : Type) : Type :=
  world * list st_event → result A * (world * list st_event).

#[global] Instance P_ret : MRet P := λ A a s, (Ok a, s).

#[global] Instance P_bind : MBind P := λ A B f m s,
  match m s with
  | (Ok a, s') => f a s'
  | (Raise e, s') => (Raise e, s')
  end.

Definition lift {A : Type} (m : M A) : P A := λ s,
  let '(r, w') := m s.1 in (r, (w', s.2)).

Definition st (e : st_event) : P unit := λ s, (Ok (), (s.1, (s.2 ++ [e])%list)).

Definition P_raise {A : Type} (e : exc) : P A := λ s, (Raise e, s).

Definition P_try_except {A : Type} (body : P A) (handler : exc → P A) : P A := λ s,
  match body s with
  | (Ok a, s') => (Ok a, s')
  | (Raise e, s') => handler e s'
  end.

(** Whitespace as [str.isspace()] decides it, for the characters a string
    holds here (code points below 256). *)
Definition py_isspace (c : ascii) : bool :=
  let n := nat_of_ascii c in
  ((9 <=? n) && (n <=? 13) || (28 <=? n) && (n <=? 32) || (n =? 133) || (n =? 160))%nat.

Fixpoint py_lstrip (s : string) : string :=
  match s with
  | EmptyString => EmptyString
  | String c s' => if py_isspace c then py_lstrip s' else s
  end.

Fixpoint py_rstrip (s : string) : string :=
  match s with
  | EmptyString => EmptyString
  | String c s' =>
      match py_rstrip s' with
      | EmptyString => if py_isspace c then EmptyString else String c EmptyString
      | r => String c r
      end
  end.

(** [s.strip()] *)
Definition py_strip (s : string) : string := py_rstrip (py_lstrip s).

Definition PLATFORM_OPTIONS : list string :=
  ["YouTube"; "YouTube Shorts"; "X"; "Facebook"; "Instagram"; "TikTok"].

Section Main.

Context (ydl : YoutubeDL) (ses : session).

(** [st.selectbox(label, options=options)] *)
Definition st_selectbox (label : string) (options : list string) : P string :=
  st (StSelectbox label options);;
  mret (default (default EmptyString (head options)) (options !! chosen_platform ses)).

(** [st.text_input(label)] *)
Definition st_text_input (label : string) : P string :=
  st (StTextInput label);; mret (typed_url ses).

(** [st.radio(label, options=options, format_func=format_func)]; a
    [format_func] that fails on an option makes the call raise. *)
Definition st_radio (label : string) (options : list pyval)
    (format_func : pyval → option pyval) : P pyval :=
  match mapM format_func options with
  | Some labels =>
      st (StRadio label options labels);;
      mret (default (default PyNone (head options)) (options !! chosen_resolution ses))
  | None => P_raise (Exc OtherException "KeyError")
  end.

(** [st.button(label)] *)
Definition st_button (label : string) : P bool :=
  st (StButton label);; mret (download_pressed ses).

(** [with open(path, "rb") as file: file.read()] *)
Definition open_read (path : string) : P string := λ s,
  (file_read ses (w_fs s.1) path, s).

(** Lines 103 to 127 of [main]: the selector, [None] unless the
    resolution picker is shown. *)
Definition main_resolution (platform url : string) : P pyval :=
  if bool_decide (platform ∈ ["YouTube"; "YouTube Shorts"])
     && negb (String.eqb (py_strip url) EmptyString)
  then
    st (StInfo "Fetching available resolutions for YouTube...");;
    st (StSpinner "Fetching video info...");;
    video_info ← lift (fetch_video_info ydl (py_strip url));
    match video_info with
    | FetchError error =>
        st (StError ("Error: " +:+ error));;
        mret PyNone
    | FetchSuccess formats =>
        let itags := available_itags formats in
        match itags with
        | _ :: _ =>
            st_radio "Select Resolution for YouTube:" itags.*1 (pydict_get itags)
        | [] =>
            st (StWarning
                  "No selectable formats found; defaulting to best available quality.");;
            mret PyNone
        end
    end
  else mret PyNone.

(** Lines 129 to 155 of [main]: the download button. *)
Definition main_download (platform url : string) (itag : pyval) : P unit :=
  pressed ← st_button "Download Video";
  if (pressed : bool) then
    if String.eqb (py_strip url) EmptyString then
      st (StError "Please enter a valid URL.")
    else
      st (StInfo ("Downloading " +:+ platform +:+ " video..."));;
      st (StSpinner "Downloading...");;
      result ← lift (download_video ydl (py_strip url) platform itag);
      match result with
      | DownloadFailure error => st (StError ("Error: " +:+ error))
      | DownloadSuccess file_path =>
          st (StSuccess "Video Downloaded Successfully!");;
          st StBalloons;;
          st (StVideo file_path);;
          P_try_except
            (video_bytes ← open_read file_path;
             st (StDownloadButton video_bytes DEFAULT_FILE_NAME "video/mp4");;
             lift (logger_debug "Rendered download button successfully."))
            (λ e,
              st (StError ("File error: " +:+ exc_str e));;
              lift (logger_error ("Error reading video file: " +:+ exc_str e)))
      end
  else mret ().

Definition main : P unit :=
  st (StTitle "Multi-Platform Video Downloader");;
  st (StWrite
        "Download videos from YouTube, YouTube Shorts, X, Facebook, Instagram, and TikTok.");;
  platform ← st_selectbox "Select Platform:" PLATFORM_OPTIONS;
  url ← st_text_input "Video URL:";
  itag ← main_resolution platform url;
  main_download platform url itag.

End Main.

(** ** Sample worlds and collaborators *)

Definition empty_world : world := World ∅ ∅ [] [].

(** A collaborator that answers every request and writes the file named
    by ["outtmpl"]. *)
Definition ydl_ok (formats : list format_dict) : YoutubeDL := {|
  ydl_extract_info := λ _ _ _, Ok (InfoDict (Some formats));
  ydl_download := λ opts _ _,
    (None, match opts !! "outtmpl" with Some (OStr p) => {[ p ]} | _ => ∅ end)
|}.

(** A collaborator that raises [e] on every request. *)
Definition ydl_raising (e : exc) : YoutubeDL := {|
  ydl_extract_info := λ _ _ _, Raise e;
  ydl_download := λ _ _ _, (Some e, ∅)
|}.

(** ** Definitions used to state the properties *)

Definition folder_names : list string :=
  ["youtube_video"; "youtube_shorts"; "x_video"; "facebook_video";
   "instagram_video"; "tiktok_video"; "downloads"].

(** The message of the failure the orchestrator reports for [e]. *)
Definition failure_message (e : exc) : string :=
  if is_DownloadError e then "Download error: " +:+ exc_str e
  else "Exception in download_video: " +:+ exc_str e.

(** The options dictionary the orchestrator hands to the collaborator. *)
Definition download_opts (platform : string) (itag : pyval) : ydl_opts_t :=
  <["format" :=
      OStr (if bool_decide (platform ∈ ["YouTube"; "YouTube Shorts"]) && truthy itag
            then get_format_string itag else "best")]>
  (<["outtmpl" :=
      OStr (os.path_join (dict_get DOWNLOAD_FOLDERS platform "downloads") DEFAULT_FILE_NAME)]>
  (<["quiet" := OBool false]>
  (<["headers" := OHeaders HEADERS]> ∅))).

(** The calls recorded in [w'] that were not yet recorded in [w]. *)
Definition calls_made (w w' : world) : list ydl_call :=
  drop (length (w_calls w)) (w_calls w').

(** One round of the loop of [main] over the formats. *)
Definition itags_step (d : list (pyval * pyval)) (f : format_dict) : list (pyval * pyval) :=
  match f !! "format_id" with
  | Some format_id =>
      pydict_set d format_id
        (py_or (default PyNone (f !! "resolution"))
               (py_or (default PyNone (f !! "format_note")) (PyStr "unknown")))
  | None => d
  end.

(** The options dictionary the info fetcher hands to the collaborator. *)
Definition fetch_opts : ydl_opts_t :=
  <["quiet" := OBool true]> (<["http_headers" := OHeaders HEADERS]> ∅).

(** A format descriptor that carries a resolution and no identifier. *)
Definition format_without_id : format_dict := {[ "resolution" := PyStr "640x360" ]}.

Definition has_format_id (f : format_dict) : bool :=
  bool_decide (is_Some (f !! "format_id")).

(** A world in which the operating system refuses to create the YouTube
    folder. *)
Definition locked_world : world :=
  World ∅ {[ "youtube_video" := "[Errno 13] Permission denied: 'youtube_video'" ]} [] [].

(** Two formats as yt-dlp reports them, with string identifiers. *)
Definition format_18 : format_dict :=
  <["format_id" := PyStr "18"]> {[ "resolution" := PyStr "640x360" ]}.
Definition format_22 : format_dict :=
  <["format_id" := PyStr "22"]> {[ "format_note" := PyStr "720p" ]}.

(** The display text of a format: its resolution, else its note, else
    ["unknown"]. *)
Definition resolution_label (f : format_dict) : pyval :=
  py_or (default PyNone (f !! "resolution"))
        (py_or (default PyNone (f !! "format_note")) (PyStr "unknown")).

(** The identifiers the formats carry, in the order of the formats. *)
Definition format_ids (formats : list format_dict) : list pyval :=
  omap (λ f : format_dict, f !! "format_id") formats.

(** A list without its repeats: of the values equal to one another, the
    first one stays, where it is. *)
Fixpoint first_occurrences (ks : list pyval) : list pyval :=
  match ks with
  | [] => []
  | k :: ks' => k :: List.filter (λ k', negb (py_eqb k k')) (first_occurrences ks')
  end.

(** The last format whose identifier equals [k]. *)
Fixpoint last_with_id (formats : list format_dict) (k : pyval) : option format_dict :=
  match formats with
  | [] => None
  | f :: formats' =>
      match last_with_id formats' k with
      | Some f' => Some f'
      | None =>
          match f !! "format_id" with
          | Some k' => if py_eqb k' k then Some f else None
          | None => None
          end
      end
  end.

(** [k] equals none of the values in [seen]. *)
Definition fresh (seen : list pyval) (k : pyval) : bool :=
  negb (existsb (λ s, py_eqb s k) seen).

(** The keys of a dictionary are different from one another. *)
Fixpoint distinct_keys (d : list (pyval * pyval)) : Prop :=
  match d with
  | [] => True
  | (k, _) :: d' => fresh d'.*1 k = true ∧ distinct_keys d'
  end.

(** A session on the page: the platform at position [i], the text [url],
    the second resolution, and a file that reads as ["video"] when it
    exists. *)
Definition sample_session (i : nat) (url : string) (pressed : bool) : session := {|
  chosen_platform := i;
  typed_url := url;
  chosen_resolution := 1;
  download_pressed := pressed;
  file_read := λ fs path,
    if bool_decide (path ∈ fs) then Ok "video"
    else Raise (Exc OSError ("[Errno 2] No such file or directory: '" +:+ path +:+ "'"))
|}.

(** The platform the session has selected. *)
Definition selected_platform (ses : session) : string :=
  default (default EmptyString (head PLATFORM_OPTIONS))
          (PLATFORM_OPTIONS !! chosen_platform ses).

(** The option of the picker the session has selected. *)
Definition selected_option (ses : session) (options : list pyval) : pyval :=
  default (default PyNone (head options)) (options !! chosen_resolution ses).

(** The [st.*] calls recorded in [evs'] that were not yet recorded in
    [evs]. *)
Definition events_made (evs evs' : list st_event) : list st_event :=
  drop (length evs) evs'.

(** What every run of the page shows first. *)
Definition page_header : list st_event :=
  [StTitle "Multi-Platform Video Downloader";
   StWrite "Download videos from YouTube, YouTube Shorts, X, Facebook, Instagram, and TikTok.";
   StSelectbox "Select Platform:" PLATFORM_OPTIONS;
   StTextInput "Video URL:"].

(** What the page shows while it fetches the formats. *)
Definition fetching_events : list st_event :=
  [StInfo "Fetching available resolutions for YouTube...";
   StSpinner "Fetching video info..."].

(** What the page shows when a download starts. *)
Definition downloading_events (platform : string) : list st_event :=
  [StButton "Download Video";
   StInfo ("Downloading " +:+ platform +:+ " video...");
   StSpinner "Downloading..."].

Section Outcomes.

Context (ydl : YoutubeDL) (ses : session).

(** The ways the resolution part of [main] can go for a platform, from
    the world [w]: the selector it leaves, the world after it and what it
    showed. *)
Inductive resolution_outcome (platform : string) (w : world)
    : pyval → world → list st_event → Prop :=
  | resolution_skipped :
      bool_decide (platform ∈ ["YouTube"; "YouTube Shorts"])
      && negb (String.eqb (py_strip (typed_url ses)) EmptyString) = false →
      resolution_outcome platform w PyNone w []
  | resolution_failed (error : string) :
      bool_decide (platform ∈ ["YouTube"; "YouTube Shorts"])
      && negb (String.eqb (py_strip (typed_url ses)) EmptyString) = true →
      (fetch_video_info ydl (py_strip (typed_url ses)) w).1 = Ok (FetchError error) →
      resolution_outcome platform w PyNone
        (fetch_video_info ydl (py_strip (typed_url ses)) w).2
        (fetching_events ++ [StError ("Error: " +:+ error)])
  | resolution_none (formats : list format_dict) :
      bool_decide (platform ∈ ["YouTube"; "YouTube Shorts"])
      && negb (String.eqb (py_strip (typed_url ses)) EmptyString) = true →
      (fetch_video_info ydl (py_strip (typed_url ses)) w).1 = Ok (FetchSuccess formats) →
      radio_options formats = [] →
      resolution_outcome platform w PyNone
        (fetch_video_info ydl (py_strip (typed_url ses)) w).2
        (fetching_events
         ++ [StWarning "No selectable formats found; defaulting to best available quality."])
  | resolution_picked (formats : list format_dict) :
      bool_decide (platform ∈ ["YouTube"; "YouTube Shorts"])
      && negb (String.eqb (py_strip (typed_url ses)) EmptyString) = true →
      (fetch_video_info ydl (py_strip (typed_url ses)) w).1 = Ok (FetchSuccess formats) →
      radio_options formats ≠ [] →
      resolution_outcome platform w (selected_option ses (radio_options formats))
        (fetch_video_info ydl (py_strip (typed_url ses)) w).2
        (fetching_events
         ++ [StRadio "Select Resolution for YouTube:" (radio_options formats)
                     (available_itags formats).*2]).

(** The ways the download part of [main] can go, from the world [w]. *)
Inductive download_outcome (platform : string) (itag : pyval) (w : world)
    : world → list st_event → Prop :=
  | download_idle :
      download_pressed ses = false →
      download_outcome platform itag w w [StButton "Download Video"]
  | download_blank :
      download_pressed ses = true →
      py_strip (typed_url ses) = EmptyString →
      download_outcome platform itag w w
        [StButton "Download Video"; StError "Please enter a valid URL."]
  | download_failed (error : string) :
      download_pressed ses = true →
      py_strip (typed_url ses) ≠ EmptyString →
      (download_video ydl (py_strip (typed_url ses)) platform itag w).1
        = Ok (DownloadFailure error) →
      download_outcome platform itag w
        (download_video ydl (py_strip (typed_url ses)) platform itag w).2
        (downloading_events platform ++ [StError ("Error: " +:+ error)])
  | download_saved (p data : string) :
      download_pressed ses = true →
      py_strip (typed_url ses) ≠ EmptyString →
      (download_video ydl (py_strip (typed_url ses)) platform itag w).1
        = Ok (DownloadSuccess p) →
      file_read ses
        (w_fs (download_video ydl (py_strip (typed_url ses)) platform itag w).2) p
        = Ok data →
      download_outcome platform itag w
        (add_log DEBUG "Rendered download button successfully."
           (download_video ydl (py_strip (typed_url ses)) platform itag w).2)
        (downloading_events platform
         ++ [StSuccess "Video Downloaded Successfully!"; StBalloons; StVideo p;
             StDownloadButton data DEFAULT_FILE_NAME "video/mp4"])
  | download_unreadable (p : string) (e : exc) :
      download_pressed ses = true →
      py_strip (typed_url ses) ≠ EmptyString →
      (download_video ydl (py_strip (typed_url ses)) platform itag w).1
        = Ok (DownloadSuccess p) →
      file_read ses
        (w_fs (download_video ydl (py_strip (typed_url ses)) platform itag w).2) p
        = Raise e →
      download_outcome platform itag w
        (add_log ERROR ("Error reading video file: " +:+ exc_str e)
           (download_video ydl (py_strip (typed_url ses)) platform itag w).2)
        (downloading_events platform
         ++ [StSuccess "Video Downloaded Successfully!"; StBalloons; StVideo p;
             StError ("File error: " +:+ exc_str e)]).

End Outcomes.

(** * Properties *)

(** ** The code on sample inputs *)

Example get_format_string_22 : get_format_string (PyInt 22) = "22".
Proof. reflexivity. Qed.

Example get_format_string_str22 : get_format_string (PyStr "22") = "best".
Proof. reflexivity. Qed.

Example path_join_youtube : os.path_join "youtube_video" "Untitled.mp4" = "youtube_video/Untitled.mp4".
Proof. reflexivity. Qed.

Example parents_nested : os.parents "a/b/c" = ["a"; "a/b"].
Proof. reflexivity. Qed.

Example download_youtube_22 :
  (download_video (ydl_ok []) "https://youtu.be/x" "YouTube" (PyInt 22) empty_world).1
  = Ok (DownloadSuccess "youtube_video/Untitled.mp4").
Proof. vm_compute. reflexivity. Qed.

Example download_log :
  w_log (download_video (ydl_ok []) "u" "YouTube" (PyInt 22) empty_world).2
  = [(DEBUG, "Downloading YouTube video from URL: u with itag: 22");
     (DEBUG, "Folder 'youtube_video' does not exist. Creating folder.");
     (DEBUG, "YouTube video downloaded successfully to youtube_video/Untitled.mp4")].
Proof. vm_compute. reflexivity. Qed.

Example download_tiktok_best :
  calls_made empty_world
    (download_video (ydl_ok []) "https://vm.tiktok.com/x" "TikTok" PyNone empty_world).2
  = [CallDownload
       (<["format" := OStr "best"]>
        (<["outtmpl" := OStr "tiktok_video/Untitled.mp4"]>
        (<["quiet" := OBool false]>
        (<["headers" := OHeaders HEADERS]> ∅))))
       ["https://vm.tiktok.com/x"] {[ "tiktok_video" ]}].
Proof. vm_compute. reflexivity. Qed.

Example radio_options_of_two_formats :
  available_itags [format_18; format_22]
  = [(PyStr "18", PyStr "640x360"); (PyStr "22", PyStr "720p")].
Proof. vm_compute. reflexivity. Qed.

(** ** The tables *)

Lemma format_map_lookup (z : Z) :
  format_map !! z =
    if decide (z = 18) then Some "18"
    else if decide (z = 22) then Some "22"
    else if decide (z = 37) then Some "37"
    else None.
Proof.
  unfold format_map.
  repeat (rewrite lookup_insert; case_decide; subst;
          [ repeat case_decide; congruence || lia | ]).
  rewrite lookup_empty. repeat case_decide; congruence.
Qed.

Lemma download_folder_known (platform : string) :
  dict_get DOWNLOAD_FOLDERS platform "downloads" ∈ folder_names.
Proof.
  unfold dict_get, DOWNLOAD_FOLDERS, folder_names.
  repeat (rewrite lookup_insert; case_decide; [ simpl; set_solver | ]).
  rewrite lookup_empty. simpl. set_solver.
Qed.

Lemma download_folder_join (platform : string) :
  os.path_join (dict_get DOWNLOAD_FOLDERS platform "downloads") DEFAULT_FILE_NAME
  = dict_get DOWNLOAD_FOLDERS platform "downloads" +:+ "/Untitled.mp4".
Proof.
  pose proof (download_folder_known platform) as Hin.
  unfold folder_names in Hin.
  repeat (apply elem_of_cons in Hin as [-> | Hin]; [ reflexivity | ]).
  by apply elem_of_nil in Hin.
Qed.

Lemma download_folder_nonempty (platform : string) :
  String.eqb (dict_get DOWNLOAD_FOLDERS platform "downloads") EmptyString = false.
Proof.
  pose proof (download_folder_known platform) as Hin.
  unfold folder_names in Hin.
  repeat (apply elem_of_cons in Hin as [-> | Hin]; [ reflexivity | ]).
  by apply elem_of_nil in Hin.
Qed.

(** ** The folder provisioner, case by case *)

Ltac run_monad :=
  unfold mbind, M_bind, mret, M_ret, try_except, raise,
         logger_debug, logger_error, add_log, os.path_exists, os.makedirs; simpl.

Lemma ensure_folder_exists_present (folder : string) (w : world) :
  folder ∈ w_fs w →
  ensure_folder_exists folder w =
    (Ok (), add_log DEBUG ("Folder '" +:+ folder +:+ "' already exists.") w).
Proof.
  intros Hin. unfold ensure_folder_exists. run_monad.
  by rewrite bool_decide_eq_true_2.
Qed.

Lemma ensure_folder_exists_created (folder : string) (w : world) :
  folder ∉ w_fs w → String.eqb folder EmptyString = false → w_mkdir_error w !! folder = None →
  ensure_folder_exists folder w =
    (Ok (), World (w_fs w ∪ list_to_set (os.parents folder) ∪ {[ folder ]})
                  (w_mkdir_error w)
                  (w_log w ++ [(DEBUG, "Folder '" +:+ folder +:+ "' does not exist. Creating folder.")])
                  (w_calls w)).
Proof.
  intros Hnin Hne Hok. unfold ensure_folder_exists. run_monad.
  rewrite bool_decide_eq_false_2 by done. simpl.
  rewrite Hne. rewrite bool_decide_eq_false_2 by done. by rewrite Hok.
Qed.

Lemma ensure_folder_exists_refused (folder msg : string) (w : world) :
  folder ∉ w_fs w → String.eqb folder EmptyString = false → w_mkdir_error w !! folder = Some msg →
  ensure_folder_exists folder w =
    (Raise (Exc OSError msg),
     World (w_fs w) (w_mkdir_error w)
           (w_log w ++ [(DEBUG, "Folder '" +:+ folder +:+ "' does not exist. Creating folder.")])
           (w_calls w)).
Proof.
  intros Hnin Hne Hno. unfold ensure_folder_exists. run_monad.
  rewrite bool_decide_eq_false_2 by done. simpl.
  rewrite Hne. rewrite bool_decide_eq_false_2 by done. by rewrite Hno.
Qed.

Lemma ensure_folder_exists_empty (w : world) :
  EmptyString ∉ w_fs w →
  ensure_folder_exists EmptyString w =
    (Raise (Exc OSError "[Errno 2] No such file or directory: ''"),
     World (w_fs w) (w_mkdir_error w)
           (w_log w ++ [(DEBUG, "Folder '' does not exist. Creating folder.")])
           (w_calls w)).
Proof.
  intros Hnin. unfold ensure_folder_exists. run_monad.
  by rewrite bool_decide_eq_false_2.
Qed.

(** What the provisioner answers and does to the file system depends on
    the file system alone, not on the log or on earlier calls. *)
Lemma ensure_folder_exists_frame (folder : string) (w : world) log calls :
  (ensure_folder_exists folder (World (w_fs w) (w_mkdir_error w) log calls)).1
    = (ensure_folder_exists folder w).1
  ∧ w_fs (ensure_folder_exists folder (World (w_fs w) (w_mkdir_error w) log calls)).2
    = w_fs (ensure_folder_exists folder w).2.
Proof.
  unfold ensure_folder_exists. run_monad.
  destruct (bool_decide (folder ∈ w_fs w)) eqn:Hin; simpl; [ done | ].
  destruct (String.eqb folder EmptyString); [ done | ].
  rewrite !Hin. destruct (w_mkdir_error w !! folder); done.
Qed.

(** The provisioner never removes a path, and it leaves the record of
    collaborator calls alone. *)
Lemma ensure_folder_exists_effect (folder : string) (w : world) :
  w_fs w ⊆ w_fs (ensure_folder_exists folder w).2
  ∧ w_calls (ensure_folder_exists folder w).2 = w_calls w
  ∧ w_mkdir_error (ensure_folder_exists folder w).2 = w_mkdir_error w.
Proof.
  unfold ensure_folder_exists. run_monad.
  destruct (bool_decide (folder ∈ w_fs w)) eqn:Hin; simpl; [ done | ].
  destruct (String.eqb folder EmptyString); [ done | ].
  rewrite !Hin. destruct (w_mkdir_error w !! folder); simpl; [ done | ].
  split; [ set_solver | done ].
Qed.

Lemma ensure_folder_exists_ok (folder : string) (w : world) :
  (ensure_folder_exists folder w).1 = Ok () →
  folder ∈ w_fs (ensure_folder_exists folder w).2.
Proof.
  unfold ensure_folder_exists. run_monad.
  destruct (bool_decide (folder ∈ w_fs w)) eqn:Hin; simpl.
  - intros _. by apply bool_decide_eq_true in Hin.
  - destruct (String.eqb folder EmptyString); [ done | ].
    rewrite !Hin. destruct (w_mkdir_error w !! folder); simpl; [ done | ].
    intros _. set_solver.
Qed.

(** ** The orchestrator, case by case *)

Lemma download_video_run (ydl : YoutubeDL) (url platform : string) (itag : pyval) (w : world) :
  let folder := dict_get DOWNLOAD_FOLDERS platform "downloads" in
  let file_path := os.path_join folder DEFAULT_FILE_NAME in
  let w0 := add_log DEBUG ("Downloading " +:+ platform +:+ " video from URL: " +:+ url
                           +:+ " with itag: " +:+ py_str itag) w in
  download_video ydl url platform itag w =
    match ensure_folder_exists folder w0 with
    | (Raise e, w1) =>
        (Ok (DownloadFailure (failure_message e)), add_log ERROR (failure_message e) w1)
    | (Ok _, w1) =>
        let opts := download_opts platform itag in
        let w2 := World (w_fs w1 ∪ (ydl_download ydl opts [url] (w_fs w1)).2)
                        (w_mkdir_error w1) (w_log w1)
                        (w_calls w1 ++ [CallDownload opts [url] (w_fs w1)]) in
        match (ydl_download ydl opts [url] (w_fs w1)).1 with
        | Some e =>
            (Ok (DownloadFailure (failure_message e)), add_log ERROR (failure_message e) w2)
        | None =>
            (Ok (DownloadSuccess file_path),
             add_log DEBUG (platform +:+ " video downloaded successfully to " +:+ file_path) w2)
        end
    end.
Proof.
  intros folder file_path w0.
  unfold download_video, try_except, mbind, M_bind.
  change (logger_debug _ w) with (Ok (), w0).
  fold folder. cbv beta iota zeta.
  destruct (ensure_folder_exists folder w0) as [[[]|e] w1].
  - fold file_path.
    assert ((if bool_decide (platform ∈ ["YouTube"; "YouTube Shorts"]) && truthy itag
             then <["format" := OStr (get_format_string itag)]>
                    (<["outtmpl" := OStr file_path]>
                       (<["quiet" := OBool false]> (<["headers" := OHeaders HEADERS]> ∅)))
             else <["format" := OStr "best"]>
                    (<["outtmpl" := OStr file_path]>
                       (<["quiet" := OBool false]> (<["headers" := OHeaders HEADERS]> ∅))))
            = download_opts platform itag) as ->.
    { unfold download_opts. fold folder. fold file_path.
      by destruct (bool_decide _ && truthy itag). }
    unfold YoutubeDL_download.
    destruct (ydl_download ydl (download_opts platform itag) [url] (w_fs w1))
      as [[e|] written]; simpl.
    + unfold failure_message. by destruct (is_DownloadError e).
    + done.
  - unfold failure_message. by destruct (is_DownloadError e).
Qed.

Lemma ensure_folder_exists_raise (folder : string) (w : world) (e : exc) :
  (ensure_folder_exists folder w).1 = Raise e →
  exc_class_of e = OSError ∧ w_fs (ensure_folder_exists folder w).2 = w_fs w.
Proof.
  unfold ensure_folder_exists. run_monad.
  destruct (bool_decide (folder ∈ w_fs w)) eqn:Hin; simpl; [ done | ].
  destruct (String.eqb folder EmptyString); simpl; [ by intros [= <-] | ].
  rewrite !Hin. destruct (w_mkdir_error w !! folder); simpl; [ by intros [= <-] | done ].
Qed.

Section Orchestrator.

Context (ydl : YoutubeDL) (url platform : string) (itag : pyval) (w : world).

Local Abbreviation folder := (dict_get DOWNLOAD_FOLDERS platform "downloads").
Local Abbreviation file_path := (os.path_join folder DEFAULT_FILE_NAME).
Local Abbreviation w0 :=
  (add_log DEBUG ("Downloading " +:+ platform +:+ " video from URL: " +:+ url
                  +:+ " with itag: " +:+ py_str itag) w).
Local Abbreviation res := (download_video ydl url platform itag w).

Lemma provisioning_frame :
  (ensure_folder_exists folder w0).1 = (ensure_folder_exists folder w).1
  ∧ w_fs (ensure_folder_exists folder w0).2 = w_fs (ensure_folder_exists folder w).2
  ∧ w_calls (ensure_folder_exists folder w0).2 = w_calls w.
Proof.
  pose proof (ensure_folder_exists_frame folder w (w_log w0) (w_calls w)) as [H1 H2].
  pose proof (ensure_folder_exists_effect folder w0) as (_ & H3 & _).
  done.
Qed.

(** Provisioning raised: the failure is reported, the collaborator is
    not called and the file system is as it was. *)
Lemma download_video_provision_failed (e : exc) :
  (ensure_folder_exists folder w).1 = Raise e →
  res.1 = Ok (DownloadFailure ("Exception in download_video: " +:+ exc_str e))
  ∧ w_calls res.2 = w_calls w
  ∧ w_fs res.2 = w_fs w.
Proof.
  intros Hraise. destruct provisioning_frame as (H1 & H2 & H3).
  rewrite download_video_run.
  rewrite Hraise in H1.
  destruct (ensure_folder_exists_raise folder w e Hraise) as [Hcls Hfs].
  destruct (ensure_folder_exists folder w0) as [[[]|e'] w1]; simpl in *; [ done | ].
  injection H1 as ->.
  unfold failure_message, is_DownloadError. rewrite Hcls.
  repeat split; congruence.
Qed.

(** Provisioning returned: the collaborator is called once, with
    [download_opts] and a file system that holds the folder, and its
    answer decides the result. *)
Lemma download_video_provisioned :
  (ensure_folder_exists folder w).1 = Ok () →
  let fs1 := w_fs (ensure_folder_exists folder w).2 in
  let answer := ydl_download ydl (download_opts platform itag) [url] fs1 in
  folder ∈ fs1
  ∧ w_calls res.2 = (w_calls w ++ [CallDownload (download_opts platform itag) [url] fs1])%list
  ∧ w_fs res.2 = fs1 ∪ answer.2
  ∧ res.1 = Ok (match answer.1 with
                | Some e => DownloadFailure (failure_message e)
                | None => DownloadSuccess file_path
                end).
Proof.
  intros Hok fs1 answer. destruct provisioning_frame as (H1 & H2 & H3).
  pose proof (ensure_folder_exists_ok folder w Hok) as Hin.
  rewrite download_video_run.
  rewrite Hok in H1.
  destruct (ensure_folder_exists folder w0) as [[[]|e'] w1]; simpl in *; [ | done ].
  subst fs1 answer. rewrite <- H2, <- H3.
  split; [ by rewrite H2 | ].
  destruct (ydl_download ydl (download_opts platform itag) [url] (w_fs w1))
    as [[e|] written]; done.
Qed.

(** One of the two cases applies. *)
Lemma provisioning_outcome :
  (ensure_folder_exists folder w).1 = Ok ()
  ∨ ∃ e, (ensure_folder_exists folder w).1 = Raise e.
Proof. destruct (ensure_folder_exists folder w).1 as [[]|e]; eauto. Qed.

End Orchestrator.

(** ** Calls made to the collaborator *)

Lemma calls_made_app (w w' : world) (new : list ydl_call) :
  w_calls w' = (w_calls w ++ new)%list → calls_made w w' = new.
Proof. intros Heq. unfold calls_made. rewrite Heq. by rewrite drop_app_length. Qed.

Lemma calls_made_download (ydl : YoutubeDL) (url platform : string) (itag : pyval) (w : world) :
  let folder := dict_get DOWNLOAD_FOLDERS platform "downloads" in
  let res := download_video ydl url platform itag w in
  ((∃ e, (ensure_folder_exists folder w).1 = Raise e) ∧ calls_made w res.2 = [])
  ∨ ((ensure_folder_exists folder w).1 = Ok ()
     ∧ ∃ fs0, folder ∈ fs0
         ∧ calls_made w res.2 = [CallDownload (download_opts platform itag) [url] fs0]).
Proof.
  intros folder res.
  destruct (provisioning_outcome platform w) as [Hok | [e Hraise]].
  - right. split; [ done | ].
    destruct (download_video_provisioned ydl url platform itag w Hok) as (Hin & Hcalls & _).
    eexists. split; [ exact Hin | ]. by apply calls_made_app.
  - left. split; [ by exists e | ].
    destruct (download_video_provision_failed ydl url platform itag w e Hraise)
      as (_ & Hcalls & _).
    apply calls_made_app. by rewrite app_nil_r.
Qed.

(** ** The format specifier *)

Lemma get_format_string_int (z : Z) :
  z ≠ 18 → z ≠ 22 → z ≠ 37 → get_format_string (PyInt z) = "best".
Proof.
  intros. unfold get_format_string, int_dict_get.
  rewrite format_map_lookup. by repeat case_decide.
Qed.

Lemma get_format_string_str (s : string) : get_format_string (PyStr s) = "best".
Proof. reflexivity. Qed.

(** A selector that counts as false is not in the table. *)
Lemma get_format_string_falsy (itag : pyval) :
  truthy itag = false → get_format_string itag = "best".
Proof.
  destruct itag as [ | [] | z | s ]; simpl; try done.
  intros Hz. apply negb_false_iff, Z.eqb_eq in Hz as ->. reflexivity.
Qed.

Lemma download_opts_format (platform : string) (itag : pyval) :
  download_opts platform itag !! "format" =
    Some (OStr (if bool_decide (platform = "YouTube" ∨ platform = "YouTube Shorts")
                   && bool_decide (itag ≠ PyNone)
                then get_format_string itag else "best")).
Proof.
  unfold download_opts. rewrite lookup_insert_eq. do 2 f_equal.
  assert (bool_decide (platform ∈ ["YouTube"; "YouTube Shorts"])
          = bool_decide (platform = "YouTube" ∨ platform = "YouTube Shorts")) as ->.
  { apply bool_decide_ext. rewrite !elem_of_cons, elem_of_nil. tauto. }
  destruct (bool_decide (platform = "YouTube" ∨ platform = "YouTube Shorts")); simpl; [ | done ].
  destruct (truthy itag) eqn:Ht.
  - rewrite bool_decide_eq_true_2; [ done | ]. by intros ->.
  - rewrite (get_format_string_falsy itag Ht). by destruct (bool_decide (itag ≠ PyNone)).
Qed.

Lemma download_opts_headers (platform : string) (itag : pyval) :
  download_opts platform itag !! "headers" = Some (OHeaders HEADERS)
  ∧ download_opts platform itag !! "http_headers" = None.
Proof. unfold download_opts. by simplify_map_eq. Qed.

(** * The claims *)

(** C1. Whenever [download_video] succeeds, the file path it returns is
    the folder mapped to the platform joined with the constant file name
    ["Untitled.mp4"]: ["youtube_video/Untitled.mp4"] for YouTube,
    ["tiktok_video/Untitled.mp4"] for TikTok, and the fallback folder
    ["downloads"] for a label outside the table.  The path is a function
    of the platform label alone; neither the URL nor anything the
    collaborator answers enters it. *)
Theorem download_video_success_path
    (ydl : YoutubeDL) (url platform : string) (itag : pyval) (w w' : world) (p : string) :
  download_video ydl url platform itag w = (Ok (DownloadSuccess p), w') →
  p = os.path_join (dict_get DOWNLOAD_FOLDERS platform "downloads") DEFAULT_FILE_NAME
  ∧ p = dict_get DOWNLOAD_FOLDERS platform "downloads" +:+ "/Untitled.mp4"
  ∧ (platform = "YouTube" → p = "youtube_video/Untitled.mp4")
  ∧ (platform = "TikTok" → p = "tiktok_video/Untitled.mp4")
  ∧ (DOWNLOAD_FOLDERS !! platform = None → p = "downloads/Untitled.mp4").
Proof.
  intros Hrun.
  assert (p = os.path_join (dict_get DOWNLOAD_FOLDERS platform "downloads") DEFAULT_FILE_NAME)
    as Hp.
  { destruct (provisioning_outcome platform w) as [Hok | [e Hraise]].
    - destruct (download_video_provisioned ydl url platform itag w Hok) as (_ & _ & _ & Hres).
      rewrite Hrun in Hres. simpl in Hres.
      destruct (ydl_download _ _ _ _).1; by injection Hres.
    - destruct (download_video_provision_failed ydl url platform itag w e Hraise) as (Hres & _).
      rewrite Hrun in Hres. done. }
  split; [ exact Hp | ].
  rewrite download_folder_join in Hp.
  split; [ exact Hp | ].
  repeat split.
  - intros ->. exact Hp.
  - intros ->. exact Hp.
  - intros Hnone. rewrite Hp. unfold dict_get. by rewrite Hnone.
Qed.

Lemma download_video_success_path_witness :
  download_video (ydl_ok []) "https://youtu.be/x" "YouTube" (PyInt 22) empty_world
    = (Ok (DownloadSuccess "youtube_video/Untitled.mp4"),
       (download_video (ydl_ok []) "https://youtu.be/x" "YouTube" (PyInt 22) empty_world).2)
  ∧ "youtube_video/Untitled.mp4"
    = os.path_join (dict_get DOWNLOAD_FOLDERS "YouTube" "downloads") DEFAULT_FILE_NAME.
Proof.
  assert (download_video (ydl_ok []) "https://youtu.be/x" "YouTube" (PyInt 22) empty_world
          = (Ok (DownloadSuccess "youtube_video/Untitled.mp4"),
             (download_video (ydl_ok []) "https://youtu.be/x" "YouTube" (PyInt 22)
                             empty_world).2)) as Hrun.
  { vm_compute. reflexivity. }
  split; [ exact Hrun | ].
  exact (proj1 (download_video_success_path _ _ _ _ _ _ _ Hrun)).
Defined.

(** C2. [get_format_string] is a total function of its argument alone: it
    maps the identifiers 18, 22 and 37 to the specifiers ["18"], ["22"]
    and ["37"], and every other identifier to ["best"]. *)
Theorem get_format_string_table :
  get_format_string (PyInt 18) = "18"
  ∧ get_format_string (PyInt 22) = "22"
  ∧ get_format_string (PyInt 37) = "37"
  ∧ ∀ itag : pyval,
      itag ≠ PyInt 18 → itag ≠ PyInt 22 → itag ≠ PyInt 37 →
      get_format_string itag = "best".
Proof.
  repeat split.
  intros itag H18 H22 H37.
  destruct itag as [ | [] | z | s ]; try reflexivity.
  apply get_format_string_int; congruence.
Qed.

Lemma get_format_string_table_witness :
  PyInt 36 ≠ PyInt 18 ∧ PyInt 36 ≠ PyInt 22 ∧ PyInt 36 ≠ PyInt 37
  ∧ get_format_string (PyInt 36) = "best".
Proof.
  assert (PyInt 36 ≠ PyInt 18) as H18 by discriminate.
  assert (PyInt 36 ≠ PyInt 22) as H22 by discriminate.
  assert (PyInt 36 ≠ PyInt 37) as H37 by discriminate.
  refine (conj H18 (conj H22 (conj H37 _))).
  exact (proj2 (proj2 (proj2 get_format_string_table)) (PyInt 36) H18 H22 H37).
Defined.

(** C3. The format specifier [download_video] configures on the
    collaborator: when the platform is YouTube or YouTube Shorts and a
    selector was supplied (it is not [None]), the specifier is
    [get_format_string] of the selector; in every other case it is
    ["best"].  The collaborator is configured at most once per request,
    and exactly once when the folder could be provided. *)
Theorem download_video_format_specifier
    (ydl : YoutubeDL) (url platform : string) (itag : pyval) (w : world) :
  let w' := (download_video ydl url platform itag w).2 in
  (length (calls_made w w') ≤ 1)%nat
  ∧ ((ensure_folder_exists (dict_get DOWNLOAD_FOLDERS platform "downloads") w).1 = Ok () →
     length (calls_made w w') = 1%nat)
  ∧ ∀ c, c ∈ calls_made w w' →
      ∃ opts fs0, c = CallDownload opts [url] fs0
        ∧ opts !! "format" =
            Some (OStr (if bool_decide (platform = "YouTube" ∨ platform = "YouTube Shorts")
                           && bool_decide (itag ≠ PyNone)
                        then get_format_string itag else "best")).
Proof.
  intros w'. subst w'.
  destruct (calls_made_download ydl url platform itag w)
    as [[[e Hraise] ->] | [Hok (fs0 & _ & ->)]]; simpl.
  - split; [ lia | ]. split; [ rewrite Hraise; done | ].
    intros c Hc. by apply elem_of_nil in Hc.
  - split; [ lia | ]. split; [ done | ].
    intros c Hc. apply list_elem_of_singleton in Hc as ->.
    eexists _, _. split; [ reflexivity | ]. apply download_opts_format.
Qed.

Lemma download_video_format_specifier_witness :
  let w' := (download_video (ydl_ok []) "https://youtu.be/x" "YouTube" (PyInt 22)
                            empty_world).2 in
  (ensure_folder_exists (dict_get DOWNLOAD_FOLDERS "YouTube" "downloads") empty_world).1 = Ok ()
  ∧ length (calls_made empty_world w') = 1%nat
  ∧ ∃ opts fs0, CallDownload opts ["https://youtu.be/x"] fs0 ∈ calls_made empty_world w'
      ∧ opts !! "format" = Some (OStr "22").
Proof.
  intros w'.
  destruct (download_video_format_specifier
              (ydl_ok []) "https://youtu.be/x" "YouTube" (PyInt 22) empty_world)
    as (_ & Hone & Hall).
  assert ((ensure_folder_exists (dict_get DOWNLOAD_FOLDERS "YouTube" "downloads")
                                empty_world).1 = Ok ()) as Hok.
  { vm_compute. reflexivity. }
  split; [ exact Hok | ]. split; [ exact (Hone Hok) | ].
  specialize (Hone Hok). fold w' in Hone, Hall.
  destruct (calls_made empty_world w') as [ | c [ | c' rest ] ]; try discriminate Hone.
  destruct (Hall c) as (opts & fs0 & -> & Hfmt); [ apply list_elem_of_here | ].
  exists opts, fs0. split; [ apply list_elem_of_here | exact Hfmt ].
Defined.

(** ** The resolution picker *)

Lemma available_itags_foldl (formats : list format_dict) :
  available_itags formats = foldl itags_step [] formats.
Proof. reflexivity. Qed.

Lemma py_eqb_refl (k : pyval) : py_eqb k k = true.
Proof.
  destruct k as [ | [] | z | s ]; simpl; try done.
  - apply Z.eqb_refl.
  - apply String.eqb_refl.
Qed.

Lemma pydict_set_keys (d : list (pyval * pyval)) (k v k0 : pyval) :
  k0 ∈ (pydict_set d k v).*1 ↔ k0 ∈ d.*1 ∨ (k0 = k ∧ ∀ k', k' ∈ d.*1 → py_eqb k' k = false).
Proof.
  induction d as [ | [k' v'] d IH ]; simpl.
  - rewrite list_elem_of_singleton. split.
    + intros ->. right. split; [ done | ]. intros k' Hk'. by apply elem_of_nil in Hk'.
    + intros [Hk0 | [-> _]]; [ by apply elem_of_nil in Hk0 | done ].
  - destruct (py_eqb k' k) eqn:Heq; simpl.
    + split; [ by left | ].
      intros [Hin | [-> Hfresh]]; [ done | ].
      specialize (Hfresh k' (list_elem_of_here _ _)). congruence.
    + rewrite !elem_of_cons, IH. split.
      * intros [-> | [Hin | [-> Hfresh]]]; [ by left; left | by left; right | ].
        right. split; [ done | ].
        intros k'' [-> | Hk'']%elem_of_cons; [ done | by apply Hfresh ].
      * intros [[-> | Hin] | [-> Hfresh]]; [ by left | by right; left | ].
        right. right. split; [ done | ].
        intros k'' Hk''. apply Hfresh. by apply list_elem_of_further.
Qed.

Lemma pydict_set_has_key (d : list (pyval * pyval)) (k v : pyval) :
  ∃ k', k' ∈ (pydict_set d k v).*1 ∧ py_eqb k' k = true.
Proof.
  induction d as [ | [k' v'] d (k'' & Hin & Heq) ]; simpl.
  - exists k. split; [ apply list_elem_of_here | apply py_eqb_refl ].
  - destruct (py_eqb k' k) eqn:Hk; simpl.
    + exists k'. split; [ apply list_elem_of_here | done ].
    + exists k''. split; [ by apply list_elem_of_further | done ].
Qed.

Lemma itags_step_keys_mono (d : list (pyval * pyval)) (f : format_dict) (k : pyval) :
  k ∈ d.*1 → k ∈ (itags_step d f).*1.
Proof.
  intros Hin. unfold itags_step. destruct (f !! "format_id"); [ | done ].
  apply pydict_set_keys. by left.
Qed.

Lemma itags_fold_keys_mono (formats : list format_dict) (d : list (pyval * pyval)) (k : pyval) :
  k ∈ d.*1 → k ∈ (foldl itags_step d formats).*1.
Proof.
  revert d. induction formats as [ | f formats IH ]; intros d Hin; simpl; [ done | ].
  apply IH. by apply itags_step_keys_mono.
Qed.

(** Every key of the picker is the identifier of one of the formats. *)
Lemma itags_fold_keys_origin (formats : list format_dict) (d : list (pyval * pyval)) (k : pyval) :
  k ∈ (foldl itags_step d formats).*1 →
  k ∈ d.*1 ∨ ∃ f, f ∈ formats ∧ f !! "format_id" = Some k.
Proof.
  revert d. induction formats as [ | f formats IH ]; intros d Hin; simpl in Hin; [ by left | ].
  destruct (IH _ Hin) as [Hstep | (f' & Hf' & Hid)].
  - unfold itags_step in Hstep. destruct (f !! "format_id") as [id | ] eqn:Hid.
    + apply pydict_set_keys in Hstep as [Hd | [-> _]]; [ by left | ].
      right. exists f. split; [ apply list_elem_of_here | done ].
    + by left.
  - right. exists f'. split; [ by apply list_elem_of_further | done ].
Qed.

(** Every format that carries an identifier is represented in the
    picker, by a key equal to its identifier. *)
Lemma itags_fold_keys_complete (formats : list format_dict) (d : list (pyval * pyval))
    (f : format_dict) (k : pyval) :
  f ∈ formats → f !! "format_id" = Some k →
  ∃ k', k' ∈ (foldl itags_step d formats).*1 ∧ py_eqb k' k = true.
Proof.
  revert d. induction formats as [ | f0 formats IH ]; intros d Hin Hid.
  - by apply elem_of_nil in Hin.
  - apply elem_of_cons in Hin as [-> | Hin]; simpl.
    + unfold itags_step at 2. rewrite Hid.
      destruct (pydict_set_has_key d k
                  (py_or (default PyNone (f0 !! "resolution"))
                         (py_or (default PyNone (f0 !! "format_note")) (PyStr "unknown"))))
        as (k' & Hk' & Heq).
      exists k'. split; [ by apply itags_fold_keys_mono | done ].
    + by apply IH.
Qed.

(** ** The info fetcher, case by case *)

Lemma fetch_video_info_run (ydl : YoutubeDL) (url : string) (w : world) :
  let w1 := World (w_fs w) (w_mkdir_error w) (w_log w)
                  (w_calls w ++ [CallExtractInfo fetch_opts url false]) in
  fetch_video_info ydl url w =
    match ydl_extract_info ydl fetch_opts url false with
    | Ok info => (Ok (FetchSuccess (default [] (info_formats info))), w1)
    | Raise e =>
        (Ok (FetchError (exc_str e)),
         add_log ERROR ("Exception in fetch_video_info: " +:+ exc_str e) w1)
    end.
Proof.
  intros w1. unfold fetch_video_info, try_except, mbind, M_bind, YoutubeDL_extract_info.
  fold fetch_opts. fold w1.
  destruct (ydl_extract_info ydl fetch_opts url false); reflexivity.
Qed.

Lemma fetch_video_info_calls (ydl : YoutubeDL) (url : string) (w : world) :
  calls_made w (fetch_video_info ydl url w).2 = [CallExtractInfo fetch_opts url false].
Proof.
  apply calls_made_app. rewrite fetch_video_info_run.
  destruct (ydl_extract_info ydl fetch_opts url false); reflexivity.
Qed.

(** C4, as stated, fails: for a response whose only variant has no format
    identifier, [fetch_video_info] returns that variant, not the list
    with it dropped, and so not the empty list. *)
Lemma fetch_video_info_keeps_format_without_id :
  format_without_id !! "format_id" = None
  ∧ (fetch_video_info (ydl_ok [format_without_id]) "https://youtu.be/x" empty_world).1
    = Ok (FetchSuccess [format_without_id])
  ∧ (fetch_video_info (ydl_ok [format_without_id]) "https://youtu.be/x" empty_world).1
    ≠ Ok (FetchSuccess (List.filter has_format_id [format_without_id]))
  ∧ (fetch_video_info (ydl_ok [format_without_id]) "https://youtu.be/x" empty_world).1
    ≠ Ok (FetchSuccess []).
Proof.
  split; [ reflexivity | ].
  assert ((fetch_video_info (ydl_ok [format_without_id]) "https://youtu.be/x" empty_world).1
          = Ok (FetchSuccess [format_without_id])) as Hrun.
  { rewrite fetch_video_info_run. reflexivity. }
  split; [ exact Hrun | ].
  rewrite Hrun. split; intros Heq; discriminate Heq.
Qed.

(** C4, amended.  On success [fetch_video_info] returns the variants of
    the collaborator's answer as they are, all of them (the empty list
    when the answer has no ['formats'] entry).  The variants without a
    format identifier are dropped later, by [main], when it builds the
    resolution picker: the options of the picker are identifiers of
    variants that carry one, every such variant is represented, and when
    no variant carries an identifier the picker has no option. *)
Theorem fetch_video_info_formats_unfiltered (ydl : YoutubeDL) (url : string) (w : world) :
  (∀ info, ydl_extract_info ydl fetch_opts url false = Ok info →
     (fetch_video_info ydl url w).1 = Ok (FetchSuccess (default [] (info_formats info))))
  ∧ calls_made w (fetch_video_info ydl url w).2 = [CallExtractInfo fetch_opts url false]
  ∧ (∀ (formats : list format_dict) (k : pyval),
       k ∈ radio_options formats → ∃ f, f ∈ formats ∧ f !! "format_id" = Some k)
  ∧ (∀ (formats : list format_dict) (f : format_dict) (k : pyval),
       f ∈ formats → f !! "format_id" = Some k →
       ∃ k', k' ∈ radio_options formats ∧ py_eqb k' k = true)
  ∧ (∀ formats : list format_dict,
       (∀ f, f ∈ formats → f !! "format_id" = None) → radio_options formats = []).
Proof.
  split; [ | split; [ | split; [ | split ] ] ].
  - intros info Hinfo. rewrite fetch_video_info_run. by rewrite Hinfo.
  - apply fetch_video_info_calls.
  - intros formats k Hk. unfold radio_options in Hk. rewrite available_itags_foldl in Hk.
    apply itags_fold_keys_origin in Hk as [Hnil | Hf]; [ | done ].
    by apply elem_of_nil in Hnil.
  - intros formats f k Hf Hid. unfold radio_options. rewrite available_itags_foldl.
    by eapply itags_fold_keys_complete.
  - intros formats Hnone. unfold radio_options.
    destruct (available_itags formats).*1 as [ | k ks ] eqn:Hkeys; [ done | ].
    assert (k ∈ (available_itags formats).*1) as Hk by (rewrite Hkeys; apply list_elem_of_here).
    rewrite available_itags_foldl in Hk.
    apply itags_fold_keys_origin in Hk as [Hnil | (f & Hf & Hid)].
    + by apply elem_of_nil in Hnil.
    + rewrite (Hnone f Hf) in Hid. discriminate Hid.
Qed.

Lemma fetch_video_info_formats_unfiltered_witness :
  ydl_extract_info (ydl_ok [format_without_id]) fetch_opts "https://youtu.be/x" false
    = Ok (InfoDict (Some [format_without_id]))
  ∧ (fetch_video_info (ydl_ok [format_without_id]) "https://youtu.be/x" empty_world).1
    = Ok (FetchSuccess [format_without_id])
  ∧ (∀ f, f ∈ [format_without_id] → f !! "format_id" = None)
  ∧ radio_options [format_without_id] = [].
Proof.
  destruct (fetch_video_info_formats_unfiltered
              (ydl_ok [format_without_id]) "https://youtu.be/x" empty_world)
    as (Hfetch & _ & _ & _ & Hempty).
  assert (∀ f, f ∈ [format_without_id] → f !! "format_id" = None) as Hnone.
  { intros f Hf. apply list_elem_of_singleton in Hf as ->. reflexivity. }
  refine (conj eq_refl (conj (Hfetch _ eq_refl) (conj Hnone (Hempty _ Hnone)))).
Defined.

(** ** The client identity header *)

(** Whatever the request, the orchestrator files [HEADERS] under the key
    ["headers"] and sets no ["http_headers"]; the info fetcher files them
    under ["http_headers"]. *)
Lemma download_video_calls_headers
    (ydl : YoutubeDL) (url platform : string) (itag : pyval) (w : world) (c : ydl_call) :
  c ∈ calls_made w (download_video ydl url platform itag w).2 →
  ∃ opts fs0, c = CallDownload opts [url] fs0
    ∧ opts !! "headers" = Some (OHeaders HEADERS)
    ∧ opts !! "http_headers" = None.
Proof.
  destruct (calls_made_download ydl url platform itag w)
    as [[_ ->] | [_ (fs0 & _ & ->)]]; intros Hc.
  - by apply elem_of_nil in Hc.
  - apply list_elem_of_singleton in Hc as ->.
    eexists _, _. split; [ reflexivity | apply download_opts_headers ].
Qed.

(** C5.  The two functions do not configure the collaborator through the
    same field.  For [download_video("https://youtu.be/x", "YouTube")]
    the options handed to the collaborator carry [HEADERS] under
    ["headers"] and have no ["http_headers"] entry, while
    [fetch_video_info] for the same URL passes [HEADERS] as
    ["http_headers"], the collaborator's header override. *)
Theorem download_video_headers_not_http_headers :
  (∃ opts fs0,
      calls_made empty_world
        (download_video (ydl_ok []) "https://youtu.be/x" "YouTube" PyNone empty_world).2
      = [CallDownload opts ["https://youtu.be/x"] fs0]
      ∧ opts !! "http_headers" = None
      ∧ opts !! "headers" = Some (OHeaders HEADERS))
  ∧ (∃ opts,
      calls_made empty_world
        (fetch_video_info (ydl_ok []) "https://youtu.be/x" empty_world).2
      = [CallExtractInfo opts "https://youtu.be/x" false]
      ∧ opts !! "http_headers" = Some (OHeaders HEADERS)
      ∧ opts !! "headers" = None).
Proof.
  split.
  - destruct (calls_made_download (ydl_ok []) "https://youtu.be/x" "YouTube" PyNone empty_world)
      as [[[e Hraise] _] | [_ (fs0 & _ & Hcalls)]].
    + vm_compute in Hraise. discriminate Hraise.
    + exists (download_opts "YouTube" PyNone), fs0.
      split; [ exact Hcalls | ].
      destruct (download_opts_headers "YouTube" PyNone). done.
  - exists fetch_opts. split; [ apply fetch_video_info_calls | ].
    unfold fetch_opts. by simplify_map_eq.
Qed.

(** C6, as stated, fails on the message: when the collaborator raises an
    exception whose text is empty (a bare [assert] does), the failure
    [fetch_video_info] returns carries the empty message. *)
Lemma fetch_video_info_empty_message :
  ydl_extract_info (ydl_raising (Exc OtherException EmptyString)) fetch_opts "not-a-url" false
    = Raise (Exc OtherException EmptyString)
  ∧ (fetch_video_info (ydl_raising (Exc OtherException EmptyString)) "not-a-url" empty_world).1
    = Ok (FetchError EmptyString)
  ∧ ¬ ∃ msg, msg ≠ EmptyString
      ∧ (fetch_video_info (ydl_raising (Exc OtherException EmptyString)) "not-a-url" empty_world).1
        = Ok (FetchError msg).
Proof.
  split; [ reflexivity | ].
  assert ((fetch_video_info (ydl_raising (Exc OtherException EmptyString)) "not-a-url" empty_world).1
          = Ok (FetchError EmptyString)) as Hrun.
  { rewrite fetch_video_info_run. reflexivity. }
  split; [ exact Hrun | ].
  intros (msg & Hne & Hmsg). rewrite Hrun in Hmsg. injection Hmsg as <-. by apply Hne.
Qed.

(** C6, amended.  When the collaborator raises an exception during
    metadata extraction, [fetch_video_info] does not raise: it returns a
    failure whose message is the text of the exception, unchanged, so the
    message is non-empty exactly when that text is.  The collaborator is
    called once; there is no second attempt. *)
Theorem fetch_video_info_failure (ydl : YoutubeDL) (url : string) (w : world) (e : exc) :
  ydl_extract_info ydl fetch_opts url false = Raise e →
  (fetch_video_info ydl url w).1 = Ok (FetchError (exc_str e))
  ∧ calls_made w (fetch_video_info ydl url w).2 = [CallExtractInfo fetch_opts url false]
  ∧ (∀ msg, (fetch_video_info ydl url w).1 = Ok (FetchError msg) →
       (msg ≠ EmptyString ↔ exc_str e ≠ EmptyString)).
Proof.
  intros Hraise.
  assert ((fetch_video_info ydl url w).1 = Ok (FetchError (exc_str e))) as Hrun.
  { rewrite fetch_video_info_run. by rewrite Hraise. }
  split; [ exact Hrun | ]. split; [ apply fetch_video_info_calls | ].
  intros msg Hmsg. rewrite Hrun in Hmsg. by injection Hmsg as <-.
Qed.

Lemma fetch_video_info_failure_witness :
  ydl_extract_info (ydl_raising (Exc DownloadError "ERROR: Unsupported URL: not-a-url"))
                   fetch_opts "not-a-url" false
    = Raise (Exc DownloadError "ERROR: Unsupported URL: not-a-url")
  ∧ (fetch_video_info (ydl_raising (Exc DownloadError "ERROR: Unsupported URL: not-a-url"))
                      "not-a-url" empty_world).1
    = Ok (FetchError "ERROR: Unsupported URL: not-a-url").
Proof.
  refine (conj eq_refl _).
  exact (proj1 (fetch_video_info_failure
                  (ydl_raising (Exc DownloadError "ERROR: Unsupported URL: not-a-url"))
                  "not-a-url" empty_world
                  (Exc DownloadError "ERROR: Unsupported URL: not-a-url") eq_refl)).
Defined.

(** ** Failures of the orchestrator *)

Lemma failure_message_distinct (e1 e2 : exc) :
  is_DownloadError e1 = true → is_DownloadError e2 = false →
  failure_message e1 ≠ failure_message e2.
Proof.
  intros H1 H2. unfold failure_message. rewrite H1, H2. simpl. discriminate.
Qed.

(** C7.  [download_video] never raises.  A failure to create the folder
    and any exception of the collaborator are turned into a failure
    result: the message starts with ["Download error: "] for a
    [DownloadError] and with ["Exception in download_video: "] for
    anything else, so the two kinds never give the same message.  The
    collaborator is called at most once: there is no second attempt. *)
Theorem download_video_never_raises
    (ydl : YoutubeDL) (url platform : string) (itag : pyval) (w : world) :
  let folder := dict_get DOWNLOAD_FOLDERS platform "downloads" in
  let res := download_video ydl url platform itag w in
  (∃ r, res.1 = Ok r)
  ∧ (∀ e, (ensure_folder_exists folder w).1 = Raise e →
       res.1 = Ok (DownloadFailure ("Exception in download_video: " +:+ exc_str e)))
  ∧ (∀ opts urls fs0 e,
       CallDownload opts urls fs0 ∈ calls_made w res.2 →
       (ydl_download ydl opts urls fs0).1 = Some e →
       res.1 = Ok (DownloadFailure
                     (if is_DownloadError e then "Download error: " +:+ exc_str e
                      else "Exception in download_video: " +:+ exc_str e)))
  ∧ (∀ m1 m2, "Download error: " +:+ m1 ≠ "Exception in download_video: " +:+ m2)
  ∧ (length (calls_made w res.2) ≤ 1)%nat.
Proof.
  intros folder res. subst folder res.
  assert (∃ r, (download_video ydl url platform itag w).1 = Ok r) as Hnoraise.
  { destruct (provisioning_outcome platform w) as [Hok | [e Hraise]].
    - destruct (download_video_provisioned ydl url platform itag w Hok) as (_ & _ & _ & ->).
      eauto.
    - destruct (download_video_provision_failed ydl url platform itag w e Hraise) as (-> & _).
      eauto. }
  split; [ exact Hnoraise | ]. split; [ | split; [ | split ] ].
  - intros e Hraise.
    by destruct (download_video_provision_failed ydl url platform itag w e Hraise) as (-> & _).
  - intros opts urls fs0 e Hcall Hanswer.
    destruct (provisioning_outcome platform w) as [Hok | [e' Hraise]].
    + destruct (download_video_provisioned ydl url platform itag w Hok)
        as (_ & Hcalls & _ & Hres).
      apply calls_made_app in Hcalls. rewrite Hcalls in Hcall.
      apply list_elem_of_singleton in Hcall. injection Hcall as -> -> ->.
      rewrite Hres, Hanswer. reflexivity.
    + destruct (download_video_provision_failed ydl url platform itag w e' Hraise)
        as (_ & Hcalls & _).
      rewrite (calls_made_app w _ []) in Hcall
        by (by rewrite app_nil_r).
      by apply elem_of_nil in Hcall.
  - intros m1 m2. simpl. discriminate.
  - destruct (calls_made_download ydl url platform itag w)
      as [[_ Hnil] | [_ (fs0 & _ & Hone)]].
    + rewrite Hnil. simpl. lia.
    + rewrite Hone. simpl. lia.
Qed.

Lemma download_video_never_raises_witness :
  ((ensure_folder_exists (dict_get DOWNLOAD_FOLDERS "YouTube" "downloads") locked_world).1
     = Raise (Exc OSError "[Errno 13] Permission denied: 'youtube_video'")
   ∧ (download_video (ydl_ok []) "https://youtu.be/x" "YouTube" PyNone locked_world).1
     = Ok (DownloadFailure
             "Exception in download_video: [Errno 13] Permission denied: 'youtube_video'"))
  ∧ (CallDownload (download_opts "TikTok" PyNone) ["not-a-url"] {[ "tiktok_video" ]}
       ∈ calls_made empty_world
           (download_video (ydl_raising (Exc DownloadError "ERROR: Unsupported URL: not-a-url"))
                           "not-a-url" "TikTok" PyNone empty_world).2
     ∧ (ydl_download (ydl_raising (Exc DownloadError "ERROR: Unsupported URL: not-a-url"))
                     (download_opts "TikTok" PyNone) ["not-a-url"] {[ "tiktok_video" ]}).1
       = Some (Exc DownloadError "ERROR: Unsupported URL: not-a-url")
     ∧ (download_video (ydl_raising (Exc DownloadError "ERROR: Unsupported URL: not-a-url"))
                       "not-a-url" "TikTok" PyNone empty_world).1
       = Ok (DownloadFailure "Download error: ERROR: Unsupported URL: not-a-url")).
Proof.
  split.
  - assert ((ensure_folder_exists (dict_get DOWNLOAD_FOLDERS "YouTube" "downloads")
                                  locked_world).1
            = Raise (Exc OSError "[Errno 13] Permission denied: 'youtube_video'")) as Hraise.
    { vm_compute. reflexivity. }
    refine (conj Hraise _).
    exact (proj1 (proj2 (download_video_never_raises
                           (ydl_ok []) "https://youtu.be/x" "YouTube" PyNone locked_world))
                 _ Hraise).
  - assert (CallDownload (download_opts "TikTok" PyNone) ["not-a-url"] {[ "tiktok_video" ]}
              ∈ calls_made empty_world
                  (download_video
                     (ydl_raising (Exc DownloadError "ERROR: Unsupported URL: not-a-url"))
                     "not-a-url" "TikTok" PyNone empty_world).2) as Hcall.
    { assert (calls_made empty_world
                (download_video
                   (ydl_raising (Exc DownloadError "ERROR: Unsupported URL: not-a-url"))
                   "not-a-url" "TikTok" PyNone empty_world).2
              = [CallDownload (download_opts "TikTok" PyNone) ["not-a-url"]
                              {[ "tiktok_video" ]}]) as ->.
      { vm_compute. reflexivity. }
      apply list_elem_of_here. }
    refine (conj Hcall (conj eq_refl _)).
    exact (proj1 (proj2 (proj2 (download_video_never_raises
                                  (ydl_raising
                                     (Exc DownloadError "ERROR: Unsupported URL: not-a-url"))
                                  "not-a-url" "TikTok" PyNone empty_world)))
                 _ _ _ _ Hcall eq_refl).
Defined.

(** ** Idempotence of the folder provisioner *)

Lemma one_path_of_that_name (folder : string) (fs : gset string) :
  folder ∈ fs → size (filter (λ p, p = folder) fs) = 1%nat.
Proof.
  intros Hin.
  assert (filter (λ p, p = folder) fs = {[ folder ]}) as ->.
  { apply set_eq. intros p. rewrite elem_of_filter, elem_of_singleton.
    split; [ by intros [-> _] | by intros -> ]. }
  apply size_singleton.
Qed.

(** C8.  [ensure_folder_exists] is idempotent.  When the folder is there,
    a call returns and leaves the file system as it is.  Two calls in a
    row end like one call does, with the same file system; when the call
    returns, the folder is there afterwards, once. *)
Theorem ensure_folder_exists_idempotent (folder : string) (w : world) :
  let once := ensure_folder_exists folder w in
  let twice := (ensure_folder_exists folder;; ensure_folder_exists folder) w in
  (folder ∈ w_fs w → once.1 = Ok () ∧ w_fs once.2 = w_fs w)
  ∧ twice.1 = once.1
  ∧ w_fs twice.2 = w_fs once.2
  ∧ (once.1 = Ok () →
     folder ∈ w_fs twice.2 ∧ size (filter (λ p, p = folder) (w_fs twice.2)) = 1%nat).
Proof.
  intros once twice.
  assert (twice.1 = once.1 ∧ w_fs twice.2 = w_fs once.2) as [Hres Hfs].
  { subst once twice. unfold mbind, M_bind.
    pose proof (ensure_folder_exists_ok folder w) as Hin.
    destruct (ensure_folder_exists folder w) as [[[]|e] w1]; simpl in *; [ | done ].
    rewrite ensure_folder_exists_present by auto. done. }
  split; [ | split; [ exact Hres | split; [ exact Hfs | ] ] ].
  - intros Hin. subst once. by rewrite ensure_folder_exists_present.
  - intros Hok. rewrite Hfs.
    pose proof (ensure_folder_exists_ok folder w Hok) as Hin.
    split; [ exact Hin | by apply one_path_of_that_name ].
Qed.

Lemma ensure_folder_exists_idempotent_witness :
  (ensure_folder_exists "tiktok_video" empty_world).1 = Ok ()
  ∧ "tiktok_video"
    ∈ w_fs ((ensure_folder_exists "tiktok_video";; ensure_folder_exists "tiktok_video")
              empty_world).2
  ∧ size (filter (λ p, p = "tiktok_video")
            (w_fs ((ensure_folder_exists "tiktok_video";; ensure_folder_exists "tiktok_video")
                     empty_world).2)) = 1%nat.
Proof.
  assert ((ensure_folder_exists "tiktok_video" empty_world).1 = Ok ()) as Hok.
  { vm_compute. reflexivity. }
  refine (conj Hok _).
  exact (proj2 (proj2 (proj2 (ensure_folder_exists_idempotent "tiktok_video" empty_world)))
               Hok).
Defined.

(** C9.  The table of [get_format_string] has integer keys, so a selector
    that is a string is never found in it, the strings ["18"], ["22"] and
    ["37"] included: the answer is ["best"].  The picker of [main] offers
    the identifiers of the formats as they come from the collaborator;
    when these are strings, every option of the picker resolves to
    ["best"], and [download_video] called with a string selector
    configures the collaborator with ["best"], for YouTube too. *)
Theorem get_format_string_of_string_selector :
  (∀ s : string, get_format_string (PyStr s) = "best")
  ∧ get_format_string (PyStr "18") = "best"
  ∧ get_format_string (PyStr "22") = "best"
  ∧ get_format_string (PyStr "37") = "best"
  ∧ (∀ formats : list format_dict,
       (∀ f v, f ∈ formats → f !! "format_id" = Some v → ∃ s, v = PyStr s) →
       ∀ k, k ∈ radio_options formats → get_format_string k = "best")
  ∧ (∀ (ydl : YoutubeDL) (url platform s : string) (w : world) (c : ydl_call),
       c ∈ calls_made w (download_video ydl url platform (PyStr s) w).2 →
       ∃ opts fs0, c = CallDownload opts [url] fs0 ∧ opts !! "format" = Some (OStr "best")).
Proof.
  split; [ reflexivity | ]. do 3 (split; [ reflexivity | ]). split.
  - intros formats Hstr k Hk. unfold radio_options in Hk.
    rewrite available_itags_foldl in Hk.
    apply itags_fold_keys_origin in Hk as [Hnil | (f & Hf & Hid)].
    + by apply elem_of_nil in Hnil.
    + destruct (Hstr f k Hf Hid) as [s ->]. reflexivity.
  - intros ydl url platform s w c Hc.
    destruct (calls_made_download ydl url platform (PyStr s) w)
      as [[_ Hnil] | [_ (fs0 & _ & Hone)]].
    + rewrite Hnil in Hc. by apply elem_of_nil in Hc.
    + rewrite Hone in Hc. apply list_elem_of_singleton in Hc as ->.
      eexists _, _. split; [ reflexivity | ].
      rewrite download_opts_format. rewrite get_format_string_str.
      by destruct (andb _ _).
Qed.

Lemma get_format_string_of_string_selector_witness :
  (∀ f v, f ∈ [format_18; format_22] → f !! "format_id" = Some v → ∃ s, v = PyStr s)
  ∧ PyStr "22" ∈ radio_options [format_18; format_22]
  ∧ get_format_string (PyStr "22") = "best".
Proof.
  assert (∀ f v, f ∈ [format_18; format_22] → f !! "format_id" = Some v → ∃ s, v = PyStr s)
    as Hstr.
  { intros f v Hf Hid. apply elem_of_cons in Hf as [-> | Hf].
    - exists "18". vm_compute in Hid. congruence.
    - apply list_elem_of_singleton in Hf as ->. exists "22". vm_compute in Hid. congruence. }
  assert (PyStr "22" ∈ radio_options [format_18; format_22]) as Hin.
  { apply list_elem_of_further, list_elem_of_here. }
  refine (conj Hstr (conj Hin _)).
  exact (proj1 (proj2 (proj2 (proj2 (proj2 get_format_string_of_string_selector))))
               _ Hstr _ Hin).
Defined.

(** C10.  [download_video] provides the folder before it calls the
    collaborator: the file system the collaborator is given holds the
    folder.  Nothing undoes this when the download fails: whenever the
    folder could be provided and the result is a failure, the folder is
    there afterwards, also when it was not there before.  No path that
    existed before the call is missing after it. *)
Theorem download_video_keeps_folder
    (ydl : YoutubeDL) (url platform : string) (itag : pyval) (w : world) :
  let folder := dict_get DOWNLOAD_FOLDERS platform "downloads" in
  let res := download_video ydl url platform itag w in
  (∀ opts urls fs0, CallDownload opts urls fs0 ∈ calls_made w res.2 → folder ∈ fs0)
  ∧ (∀ msg, res.1 = Ok (DownloadFailure msg) →
       (ensure_folder_exists folder w).1 = Ok () →
       folder ∈ w_fs res.2)
  ∧ w_fs w ⊆ w_fs res.2.
Proof.
  intros folder res. subst folder res.
  split; [ | split ].
  - intros opts urls fs0 Hcall.
    destruct (calls_made_download ydl url platform itag w)
      as [[_ Hnil] | [_ (fs1 & Hin & Hone)]].
    + rewrite Hnil in Hcall. by apply elem_of_nil in Hcall.
    + rewrite Hone in Hcall. apply list_elem_of_singleton in Hcall.
      by injection Hcall as -> -> ->.
  - intros msg _ Hok.
    destruct (download_video_provisioned ydl url platform itag w Hok) as (Hin & _ & -> & _).
    set_solver.
  - destruct (provisioning_outcome platform w) as [Hok | [e Hraise]].
    + destruct (download_video_provisioned ydl url platform itag w Hok) as (_ & _ & -> & _).
      pose proof (ensure_folder_exists_effect
                    (dict_get DOWNLOAD_FOLDERS platform "downloads") w) as (Hsub & _).
      set_solver.
    + by destruct (download_video_provision_failed ydl url platform itag w e Hraise)
        as (_ & _ & ->).
Qed.

Lemma download_video_keeps_folder_witness :
  (download_video (ydl_raising (Exc DownloadError "ERROR: Unsupported URL: not-a-url"))
                  "not-a-url" "YouTube" PyNone empty_world).1
    = Ok (DownloadFailure "Download error: ERROR: Unsupported URL: not-a-url")
  ∧ (ensure_folder_exists (dict_get DOWNLOAD_FOLDERS "YouTube" "downloads") empty_world).1
    = Ok ()
  ∧ ("youtube_video" ∉ w_fs empty_world)
  ∧ ("youtube_video"
     ∈ w_fs (download_video (ydl_raising (Exc DownloadError "ERROR: Unsupported URL: not-a-url"))
                            "not-a-url" "YouTube" PyNone empty_world).2).
Proof.
  assert ((download_video (ydl_raising (Exc DownloadError "ERROR: Unsupported URL: not-a-url"))
                          "not-a-url" "YouTube" PyNone empty_world).1
          = Ok (DownloadFailure "Download error: ERROR: Unsupported URL: not-a-url")) as Hfail.
  { vm_compute. reflexivity. }
  assert ((ensure_folder_exists (dict_get DOWNLOAD_FOLDERS "YouTube" "downloads")
                                empty_world).1 = Ok ()) as Hok.
  { vm_compute. reflexivity. }
  refine (conj Hfail (conj Hok (conj _ _))).
  - apply not_elem_of_empty.
  - exact (proj1 (proj2 (download_video_keeps_folder
                           (ydl_raising (Exc DownloadError "ERROR: Unsupported URL: not-a-url"))
                           "not-a-url" "YouTube" PyNone empty_world))
                 _ Hfail Hok).
Defined.

(** * Further properties of the page *)

(** ** One folder per platform *)

Lemma download_folders_lookup (platform folder : string) :
  DOWNLOAD_FOLDERS !! platform = Some folder →
  (platform, folder) ∈ [("YouTube", "youtube_video"); ("YouTube Shorts", "youtube_shorts");
                         ("X", "x_video"); ("Facebook", "facebook_video");
                         ("Instagram", "instagram_video"); ("TikTok", "tiktok_video")].
Proof.
  unfold DOWNLOAD_FOLDERS.
  repeat (rewrite lookup_insert; case_decide;
          [ subst; intros [= <-]; repeat constructor | ]).
  by rewrite lookup_empty.
Qed.

(** X1.  Two different platforms of the table never share an output file:
    their paths differ, and neither is the path used for a label outside
    the table. *)
Theorem download_paths_per_platform (p1 p2 f1 f2 : string) :
  DOWNLOAD_FOLDERS !! p1 = Some f1 → DOWNLOAD_FOLDERS !! p2 = Some f2 → p1 ≠ p2 →
  os.path_join f1 DEFAULT_FILE_NAME ≠ os.path_join f2 DEFAULT_FILE_NAME
  ∧ os.path_join f1 DEFAULT_FILE_NAME ≠ os.path_join "downloads" DEFAULT_FILE_NAME.
Proof.
  intros H1 H2 Hne.
  apply download_folders_lookup in H1, H2.
  repeat (apply elem_of_cons in H1 as [[= -> ->] | H1]);
    try (by apply elem_of_nil in H1);
    repeat (apply elem_of_cons in H2 as [[= -> ->] | H2]);
    try (by apply elem_of_nil in H2);
    try done; split; discriminate.
Qed.

Lemma download_paths_per_platform_witness :
  DOWNLOAD_FOLDERS !! "YouTube" = Some "youtube_video"
  ∧ DOWNLOAD_FOLDERS !! "YouTube Shorts" = Some "youtube_shorts"
  ∧ "YouTube" ≠ "YouTube Shorts"
  ∧ os.path_join "youtube_video" DEFAULT_FILE_NAME
    ≠ os.path_join "youtube_shorts" DEFAULT_FILE_NAME.
Proof.
  assert ("YouTube" ≠ "YouTube Shorts") as Hne by discriminate.
  refine (conj eq_refl (conj eq_refl (conj Hne _))).
  exact (proj1 (download_paths_per_platform
                  "YouTube" "YouTube Shorts" "youtube_video" "youtube_shorts"
                  eq_refl eq_refl Hne)).
Defined.

(** ** What the info fetcher leaves alone *)

(** X2.  [fetch_video_info] returns for every collaborator: it never
    raises.  It leaves the file system as it is, logs nothing when it
    succeeds, and logs exactly one record, at level ERROR, when it
    fails. *)
Theorem fetch_video_info_effects (ydl : YoutubeDL) (url : string) (w : world) :
  (∃ r, (fetch_video_info ydl url w).1 = Ok r)
  ∧ w_fs (fetch_video_info ydl url w).2 = w_fs w
  ∧ w_mkdir_error (fetch_video_info ydl url w).2 = w_mkdir_error w
  ∧ (∀ formats, (fetch_video_info ydl url w).1 = Ok (FetchSuccess formats) →
       w_log (fetch_video_info ydl url w).2 = w_log w)
  ∧ (∀ msg, (fetch_video_info ydl url w).1 = Ok (FetchError msg) →
       w_log (fetch_video_info ydl url w).2
       = (w_log w ++ [(ERROR, "Exception in fetch_video_info: " +:+ msg)])%list).
Proof.
  rewrite fetch_video_info_run.
  destruct (ydl_extract_info ydl fetch_opts url false) as [info | e]; simpl.
  - repeat split; eauto. intros msg Hmsg. discriminate Hmsg.
  - repeat split; eauto.
    + intros formats Hf. discriminate Hf.
    + intros msg [= <-]. reflexivity.
Qed.

Lemma fetch_video_info_effects_witness :
  (fetch_video_info (ydl_raising (Exc DownloadError "ERROR: Unsupported URL: not-a-url"))
                    "not-a-url" empty_world).1
    = Ok (FetchError "ERROR: Unsupported URL: not-a-url")
  ∧ w_log (fetch_video_info (ydl_raising (Exc DownloadError "ERROR: Unsupported URL: not-a-url"))
                            "not-a-url" empty_world).2
    = [(ERROR, "Exception in fetch_video_info: ERROR: Unsupported URL: not-a-url")].
Proof.
  assert ((fetch_video_info
             (ydl_raising (Exc DownloadError "ERROR: Unsupported URL: not-a-url"))
             "not-a-url" empty_world).1
          = Ok (FetchError "ERROR: Unsupported URL: not-a-url")) as Hfail.
  { rewrite fetch_video_info_run. reflexivity. }
  refine (conj Hfail _).
  exact (proj2 (proj2 (proj2 (proj2
           (fetch_video_info_effects
              (ydl_raising (Exc DownloadError "ERROR: Unsupported URL: not-a-url"))
              "not-a-url" empty_world)))) _ Hfail).
Defined.

(** ** The folder provisioner and [os.makedirs] *)

(** [ensure_folder_exists] hides no error of directory creation.
    When the folder is absent, it ends as [os.makedirs] ends, with the
    same exception if that one raises and the same file system; when the
    folder is present, [os.makedirs] is not asked (it would raise) and
    the call returns. *)
Theorem ensure_folder_exists_propagates (folder : string) (w : world) :
  (folder ∉ w_fs w →
     (ensure_folder_exists folder w).1 = (os.makedirs folder w).1
     ∧ w_fs (ensure_folder_exists folder w).2 = w_fs (os.makedirs folder w).2)
  ∧ (folder ∈ w_fs w →
     (ensure_folder_exists folder w).1 = Ok ()
     ∧ ∃ e, (os.makedirs folder w).1 = Raise e).
Proof.
  split.
  - intros Hnin. unfold ensure_folder_exists. run_monad.
    rewrite bool_decide_eq_false_2 by done. simpl.
    destruct (String.eqb folder EmptyString); [ done | ].
    rewrite bool_decide_eq_false_2 by done.
    destruct (w_mkdir_error w !! folder); done.
  - intros Hin. rewrite ensure_folder_exists_present by done.
    split; [ done | ]. unfold os.makedirs.
    destruct (String.eqb folder EmptyString); [ by eexists | ].
    rewrite bool_decide_eq_true_2 by done. by eexists.
Qed.

Lemma ensure_folder_exists_propagates_witness :
  ("youtube_video" ∉ w_fs locked_world)
  ∧ (ensure_folder_exists "youtube_video" locked_world).1
    = Raise (Exc OSError "[Errno 13] Permission denied: 'youtube_video'")
  ∧ (os.makedirs "youtube_video" locked_world).1
    = Raise (Exc OSError "[Errno 13] Permission denied: 'youtube_video'").
Proof.
  assert ("youtube_video" ∉ w_fs locked_world) as Hnin by apply not_elem_of_empty.
  assert ((os.makedirs "youtube_video" locked_world).1
          = Raise (Exc OSError "[Errno 13] Permission denied: 'youtube_video'")) as Hmk.
  { vm_compute. reflexivity. }
  refine (conj Hnin (conj _ Hmk)).
  rewrite <- Hmk.
  exact (proj1 (proj1 (ensure_folder_exists_propagates "youtube_video" locked_world) Hnin)).
Defined.

(** ** The footprint of the orchestrator *)

Lemma download_folder_no_parents (platform : string) :
  os.parents (dict_get DOWNLOAD_FOLDERS platform "downloads") = [].
Proof.
  pose proof (download_folder_known platform) as Hin.
  unfold folder_names in Hin.
  repeat (apply elem_of_cons in Hin as [-> | Hin]; [ reflexivity | ]).
  by apply elem_of_nil in Hin.
Qed.

Lemma provisioned_fs (platform : string) (w : world) :
  (ensure_folder_exists (dict_get DOWNLOAD_FOLDERS platform "downloads") w).1 = Ok () →
  w_fs (ensure_folder_exists (dict_get DOWNLOAD_FOLDERS platform "downloads") w).2
  = w_fs w ∪ {[ dict_get DOWNLOAD_FOLDERS platform "downloads" ]}.
Proof.
  unfold ensure_folder_exists. run_monad.
  destruct (bool_decide (_ ∈ w_fs w)) eqn:Hin; simpl.
  - intros _. apply bool_decide_eq_true in Hin.
    apply set_eq. intros x. rewrite elem_of_union, elem_of_singleton.
    split; [ by left | by intros [ ? | -> ] ].
  - rewrite download_folder_nonempty, !Hin.
    destruct (w_mkdir_error w !! _); simpl; [ done | ].
    intros _. rewrite download_folder_no_parents. simpl.
    by rewrite (right_id_L ∅ (∪)).
Qed.

(** X3.  The file system after [download_video].  When the folder cannot
    be created, nothing changes and the collaborator is not called.
    Otherwise the collaborator is called with the earlier paths and the
    platform folder, and afterwards exactly these paths and the ones the
    collaborator wrote exist: [download_video] creates no other
    directory and removes nothing. *)
Theorem download_video_fs_footprint
    (ydl : YoutubeDL) (url platform : string) (itag : pyval) (w : world) :
  let folder := dict_get DOWNLOAD_FOLDERS platform "downloads" in
  let res := download_video ydl url platform itag w in
  (∀ e, (ensure_folder_exists folder w).1 = Raise e →
     w_fs res.2 = w_fs w ∧ calls_made w res.2 = [])
  ∧ ((ensure_folder_exists folder w).1 = Ok () →
     ∃ opts,
       calls_made w res.2 = [CallDownload opts [url] (w_fs w ∪ {[ folder ]})]
       ∧ w_fs res.2
         = w_fs w ∪ {[ folder ]} ∪ (ydl_download ydl opts [url] (w_fs w ∪ {[ folder ]})).2).
Proof.
  intros folder res. subst folder res. split.
  - intros e Hraise.
    destruct (download_video_provision_failed ydl url platform itag w e Hraise)
      as (_ & Hcalls & Hfs).
    split; [ exact Hfs | ]. apply calls_made_app. by rewrite app_nil_r.
  - intros Hok.
    destruct (download_video_provisioned ydl url platform itag w Hok)
      as (_ & Hcalls & Hfs & _).
    rewrite (provisioned_fs platform w Hok) in Hcalls, Hfs.
    exists (download_opts platform itag).
    split; [ by apply calls_made_app | exact Hfs ].
Qed.

Lemma download_video_fs_footprint_witness :
  (ensure_folder_exists (dict_get DOWNLOAD_FOLDERS "TikTok" "downloads") empty_world).1 = Ok ()
  ∧ w_fs (download_video (ydl_ok []) "https://vm.tiktok.com/x" "TikTok" PyNone empty_world).2
    = {[ "tiktok_video" ]} ∪ {[ "tiktok_video/Untitled.mp4" ]}.
Proof.
  assert ((ensure_folder_exists (dict_get DOWNLOAD_FOLDERS "TikTok" "downloads")
                                empty_world).1 = Ok ()) as Hok.
  { vm_compute. reflexivity. }
  refine (conj Hok _).
  destruct (proj2 (download_video_fs_footprint
                     (ydl_ok []) "https://vm.tiktok.com/x" "TikTok" PyNone empty_world) Hok)
    as (opts & Hcalls & ->).
  rewrite download_tiktok_best in Hcalls. injection Hcalls as <-.
  vm_compute. reflexivity.
Defined.

(** X4.  [download_video] reports success exactly when it called the
    collaborator and that call raised nothing. *)
Theorem download_video_success_iff
    (ydl : YoutubeDL) (url platform : string) (itag : pyval) (w : world) :
  let res := download_video ydl url platform itag w in
  (∃ p, res.1 = Ok (DownloadSuccess p))
  ↔ (∃ opts urls fs0,
       calls_made w res.2 = [CallDownload opts urls fs0]
       ∧ (ydl_download ydl opts urls fs0).1 = None).
Proof.
  intros res. subst res.
  destruct (provisioning_outcome platform w) as [Hok | [e Hraise]].
  - destruct (download_video_provisioned ydl url platform itag w Hok)
      as (_ & Hcalls & _ & Hres).
    apply calls_made_app in Hcalls. rewrite Hcalls, Hres. split.
    + intros [p Hp]. eexists _, _, _. split; [ reflexivity | ].
      destruct (ydl_download _ _ _ _).1; [ discriminate Hp | done ].
    + intros (opts & urls & fs0 & [= <- <- <-] & ->). eauto.
  - destruct (download_video_provision_failed ydl url platform itag w e Hraise)
      as (Hres & Hcalls & _).
    rewrite (calls_made_app w _ []) by (by rewrite app_nil_r). rewrite Hres. split.
    + intros [p Hp]. discriminate Hp.
    + intros (opts & urls & fs0 & Hnil & _). discriminate Hnil.
Qed.

(** X5.  What the collaborator is asked for.  The options of every call
    made by [download_video] have exactly the four keys ["format"],
    ["outtmpl"], ["quiet"] and ["headers"], with ["quiet"] set to [False],
    and the call names the one URL of the request.  On success the path
    returned to the page is the ["outtmpl"] the collaborator was given. *)
Theorem download_video_request
    (ydl : YoutubeDL) (url platform : string) (itag : pyval) (w : world) :
  let res := download_video ydl url platform itag w in
  (∀ c, c ∈ calls_made w res.2 →
     ∃ opts fs0, c = CallDownload opts [url] fs0
       ∧ dom opts = ({[ "format"; "outtmpl"; "quiet"; "headers" ]} : gset string)
       ∧ opts !! "quiet" = Some (OBool false))
  ∧ (∀ p, res.1 = Ok (DownloadSuccess p) →
     ∃ opts fs0, calls_made w res.2 = [CallDownload opts [url] fs0]
       ∧ opts !! "outtmpl" = Some (OStr p)).
Proof.
  intros res. subst res. split.
  - intros c Hc.
    destruct (calls_made_download ydl url platform itag w)
      as [[_ Hnil] | [_ (fs0 & _ & Hone)]].
    + rewrite Hnil in Hc. by apply elem_of_nil in Hc.
    + rewrite Hone in Hc. apply list_elem_of_singleton in Hc as ->.
      eexists _, _. split; [ reflexivity | ]. unfold download_opts. split.
      * rewrite !dom_insert_L, dom_empty_L. set_solver.
      * by simplify_map_eq.
  - intros p Hp.
    destruct (provisioning_outcome platform w) as [Hok | [e Hraise]].
    + destruct (download_video_provisioned ydl url platform itag w Hok)
        as (_ & Hcalls & _ & Hres).
      rewrite Hres in Hp. eexists _, _. split; [ by apply calls_made_app | ].
      destruct (ydl_download _ _ _ _).1; [ discriminate Hp | ].
      injection Hp as <-. unfold download_opts. by simplify_map_eq.
    + destruct (download_video_provision_failed ydl url platform itag w e Hraise)
        as (Hres & _).
      rewrite Hres in Hp. discriminate Hp.
Qed.

Lemma download_video_request_witness :
  (download_video (ydl_ok []) "https://youtu.be/x" "YouTube" (PyInt 22) empty_world).1
    = Ok (DownloadSuccess "youtube_video/Untitled.mp4")
  ∧ ∃ opts fs0,
      calls_made empty_world
        (download_video (ydl_ok []) "https://youtu.be/x" "YouTube" (PyInt 22) empty_world).2
      = [CallDownload opts ["https://youtu.be/x"] fs0]
      ∧ opts !! "outtmpl" = Some (OStr "youtube_video/Untitled.mp4").
Proof.
  refine (conj download_youtube_22 _).
  exact (proj2 (download_video_request
                  (ydl_ok []) "https://youtu.be/x" "YouTube" (PyInt 22) empty_world)
               _ download_youtube_22).
Defined.

(** ** The log of the orchestrator *)

Lemma ensure_folder_exists_log (folder : string) (w : world) :
  ∃ msg, w_log (ensure_folder_exists folder w).2 = (w_log w ++ [(DEBUG, msg)])%list.
Proof.
  unfold ensure_folder_exists. run_monad.
  destruct (bool_decide (folder ∈ w_fs w)) eqn:Hin; simpl; [ by eexists | ].
  destruct (String.eqb folder EmptyString); [ by eexists | ].
  rewrite !Hin. destruct (w_mkdir_error w !! folder); by eexists.
Qed.

(** X6.  The log of [download_video] agrees with its result.  A failure
    is logged once at level ERROR, as the last record and with the very
    message returned to the page; every other record of the call is at
    level DEBUG, so a success logs no error. *)
Theorem download_video_log
    (ydl : YoutubeDL) (url platform : string) (itag : pyval) (w : world) :
  let res := download_video ydl url platform itag w in
  ∃ dbg : list (log_level * string),
    Forall (λ r, r.1 = DEBUG) dbg
    ∧ match res.1 with
      | Ok (DownloadFailure msg) => w_log res.2 = (w_log w ++ dbg ++ [(ERROR, msg)])%list
      | Ok (DownloadSuccess p) => w_log res.2 = (w_log w ++ dbg)%list
      | Raise _ => False
      end.
Proof.
  intros res. subst res. rewrite download_video_run.
  set (w0 := add_log DEBUG _ w).
  destruct (ensure_folder_exists_log (dict_get DOWNLOAD_FOLDERS platform "downloads") w0)
    as [m Hlog].
  destruct (ensure_folder_exists _ w0) as [[[]|e] w1]; simpl in *.
  - destruct (ydl_download ydl _ [url] (w_fs w1)).1 as [e | ]; simpl; rewrite Hlog.
    + eexists [(DEBUG, _); (DEBUG, _)]. split; [ by repeat constructor | ].
      by rewrite <- !app_assoc.
    + eexists [(DEBUG, _); (DEBUG, _); (DEBUG, _)]. split; [ by repeat constructor | ].
      by rewrite <- !app_assoc.
  - rewrite Hlog. eexists [(DEBUG, _); (DEBUG, _)]. split; [ by repeat constructor | ].
    by rewrite <- !app_assoc.
Qed.

(** ** Equality of keys *)

Lemma py_eqb_sym (a b : pyval) : py_eqb a b = py_eqb b a.
Proof.
  destruct a as [ | c | x | s ], b as [ | d | y | t ]; cbn [py_eqb]; try done.
  - by destruct c, d.
  - apply Z.eqb_sym.
  - apply Z.eqb_sym.
  - apply Z.eqb_sym.
  - apply String.eqb_sym.
Qed.

Lemma py_eqb_trans (a b c : pyval) :
  py_eqb a b = true → py_eqb b c = true → py_eqb a c = true.
Proof.
  destruct a as [ | a | x | s ], b as [ | b | y | t ], c as [ | c | z | u ];
    cbn [py_eqb]; try done;
    rewrite ?Z.eqb_eq, ?String.eqb_eq, ?Bool.eqb_true_iff; intros; subst;
    try done; try (by destruct a, b; simpl in *; lia);
    try (by destruct a, c; simpl in *; lia).
Qed.

Lemma fresh_snoc (seen : list pyval) (k x : pyval) :
  fresh (seen ++ [k]) x = fresh seen x && negb (py_eqb k x).
Proof.
  unfold fresh. rewrite existsb_app. simpl.
  rewrite orb_false_r. apply negb_orb.
Qed.

Lemma fresh_false (seen : list pyval) (k : pyval) :
  fresh seen k = false ↔ ∃ s, s ∈ seen ∧ py_eqb s k = true.
Proof.
  unfold fresh. rewrite negb_false_iff, existsb_exists.
  split; intros (s & Hs & Heq); exists s; split; try done; by apply list_elem_of_In.
Qed.

Lemma fresh_true (seen : list pyval) (k : pyval) :
  fresh seen k = true ↔ ∀ s, s ∈ seen → py_eqb s k = false.
Proof.
  split.
  - intros Hf s Hs. destruct (py_eqb s k) eqn:Heq; [ | done ].
    assert (fresh seen k = false) as Hff by (apply fresh_false; eauto). congruence.
  - intros Hall. destruct (fresh seen k) eqn:Hf; [ done | ].
    apply fresh_false in Hf as (s & Hs & Heq). rewrite (Hall s Hs) in Heq. done.
Qed.

(** ** The options of the picker *)

Lemma pydict_set_keys_fresh (d : list (pyval * pyval)) (k v : pyval) :
  (pydict_set d k v).*1 = if fresh d.*1 k then (d.*1 ++ [k])%list else d.*1.
Proof.
  induction d as [ | [k' v'] d IH ]; simpl; [ done | ].
  unfold fresh in *. simpl. destruct (py_eqb k' k); simpl; [ done | ].
  change (list_fmap (pyval * pyval)%type pyval fst) with (fmap (M:=list) (@fst pyval pyval)).
  rewrite IH. by destruct (existsb _ _).
Qed.

Lemma filter_filter_both {A : Type} (f g : A → bool) (l : list A) :
  List.filter f (List.filter g l) = List.filter (λ x, g x && f x) l.
Proof.
  induction l as [ | a l IH ]; simpl; [ done | ].
  destruct (g a); simpl; [ | done ]. destruct (f a); by rewrite IH.
Qed.

Lemma filter_filter_implied {A : Type} (f g : A → bool) (l : list A) :
  (∀ x, f x = true → g x = true) → List.filter f (List.filter g l) = List.filter f l.
Proof.
  intros Himp. rewrite filter_filter_both. apply filter_ext. intros x.
  destruct (f x) eqn:Hf; [ by rewrite (Himp x Hf) | apply andb_false_r ].
Qed.

Lemma itags_fold_keys (formats : list format_dict) (d : list (pyval * pyval)) :
  (foldl itags_step d formats).*1
  = (d.*1 ++ List.filter (fresh d.*1) (first_occurrences (format_ids formats)))%list.
Proof.
  revert d. induction formats as [ | f formats IH ]; intros d; simpl.
  - by rewrite app_nil_r.
  - rewrite IH. unfold itags_step, format_ids. simpl.
    destruct (f !! "format_id") as [k | ] eqn:Hid; simpl; [ | done ].
    fold (format_ids formats). rewrite pydict_set_keys_fresh.
    destruct (fresh d.*1 k) eqn:Hfresh.
    + rewrite <- app_assoc. simpl. do 2 f_equal.
      rewrite filter_filter_both. apply filter_ext. intros x.
      rewrite fresh_snoc. apply andb_comm.
    + f_equal. symmetry. apply filter_filter_implied. intros x Hx.
      apply negb_true_iff. destruct (py_eqb k x) eqn:Hkx; [ | done ].
      apply fresh_false in Hfresh as (s & Hs & Hsk).
      assert (fresh d.*1 x = false) as Hff.
      { apply fresh_false. exists s. split; [ done | by eapply py_eqb_trans ]. }
      congruence.
Qed.

(** X7.  The options of the resolution picker are the format identifiers
    in the order of the formats, each one once: of the identifiers equal
    to one another, the first stays. *)
Theorem radio_options_first_occurrences (formats : list format_dict) :
  radio_options formats = first_occurrences (format_ids formats).
Proof.
  unfold radio_options. rewrite available_itags_foldl, itags_fold_keys. simpl.
  induction (first_occurrences (format_ids formats)) as [ | k ks IH ]; simpl; [ done | ].
  by rewrite IH.
Qed.

(** ** The labels of the picker *)

Lemma pydict_get_set (d : list (pyval * pyval)) (k v x : pyval) :
  pydict_get (pydict_set d k v) x = if py_eqb k x then Some v else pydict_get d x.
Proof.
  induction d as [ | [k' v'] d IH ]; simpl; [ done | ].
  destruct (py_eqb k' k) eqn:Hk'k; simpl.
  - destruct (py_eqb k' x) eqn:Hk'x.
    + rewrite py_eqb_sym in Hk'k. by rewrite (py_eqb_trans k k' x Hk'k Hk'x).
    + destruct (py_eqb k x) eqn:Hkx; [ | done ].
      by rewrite (py_eqb_trans k' k x Hk'k Hkx) in Hk'x.
  - rewrite IH. destruct (py_eqb k' x) eqn:Hk'x; [ | done ].
    destruct (py_eqb k x) eqn:Hkx; [ | done ].
    rewrite py_eqb_sym in Hkx. by rewrite (py_eqb_trans k' x k Hk'x Hkx) in Hk'k.
Qed.

Lemma itags_fold_get (formats : list format_dict) (d : list (pyval * pyval)) (x : pyval) :
  pydict_get (foldl itags_step d formats) x
  = match last_with_id formats x with
    | Some f => Some (resolution_label f)
    | None => pydict_get d x
    end.
Proof.
  revert d. induction formats as [ | f formats IH ]; intros d; simpl; [ done | ].
  rewrite IH. destruct (last_with_id formats x); [ done | ].
  unfold itags_step. destruct (f !! "format_id") as [k | ]; [ | done ].
  rewrite pydict_get_set. by destruct (py_eqb k x).
Qed.

(** X8.  Looking an identifier up in [available_itags] gives the display
    text of the last format that has an equal identifier (its resolution,
    else its note, else ["unknown"]), and fails when no format has one:
    a later format with the same identifier replaces the text of an
    earlier one. *)
Theorem available_itags_lookup (formats : list format_dict) (k : pyval) :
  pydict_get (available_itags formats) k = resolution_label <$> last_with_id formats k.
Proof.
  rewrite available_itags_foldl, itags_fold_get.
  by destruct (last_with_id formats k).
Qed.

Lemma resolution_label_truthy (f : format_dict) : truthy (resolution_label f) = true.
Proof.
  unfold resolution_label, py_or.
  destruct (truthy (default PyNone (f !! "resolution"))) eqn:H1; [ done | ].
  by destruct (truthy (default PyNone (f !! "format_note"))) eqn:H2.
Qed.

Lemma pydict_set_distinct (d : list (pyval * pyval)) (k v : pyval) :
  distinct_keys d → distinct_keys (pydict_set d k v).
Proof.
  induction d as [ | [k' v'] d IH ]; simpl.
  - intros _. done.
  - intros [Hfresh Hd]. destruct (py_eqb k' k) eqn:Hk'k; simpl; [ done | ].
    split; [ | by apply IH ].
    rewrite pydict_set_keys_fresh. destruct (fresh d.*1 k); [ | done ].
    rewrite fresh_snoc, Hfresh. simpl. by rewrite py_eqb_sym, Hk'k.
Qed.

Lemma available_itags_distinct (formats : list format_dict) :
  distinct_keys (available_itags formats).
Proof.
  rewrite available_itags_foldl.
  assert (∀ d, distinct_keys d → distinct_keys (foldl itags_step d formats)) as Hgen.
  { induction formats as [ | f formats IH ]; intros d Hd; simpl; [ done | ].
    apply IH. unfold itags_step. destruct (f !! "format_id"); [ | done ].
    by apply pydict_set_distinct. }
  by apply Hgen.
Qed.

Lemma mapM_ext_in {A B : Type} (f g : A → option B) (l : list A) :
  (∀ x, x ∈ l → f x = g x) → mapM f l = mapM g l.
Proof.
  induction l as [ | a l IH ]; intros Hfg; simpl; [ done | ].
  rewrite (Hfg a) by apply list_elem_of_here.
  rewrite IH; [ done | ]. intros x Hx. apply Hfg. by apply list_elem_of_further.
Qed.

Lemma mapM_get_distinct (d : list (pyval * pyval)) :
  distinct_keys d → mapM (pydict_get d) d.*1 = Some d.*2.
Proof.
  induction d as [ | [k v] d IH ]; simpl; [ done | ].
  intros [Hfresh Hd]. rewrite py_eqb_refl. simpl.
  rewrite (mapM_ext_in _ (pydict_get d)).
  - change (list_fmap (pyval * pyval)%type pyval fst d) with d.*1.
    change (list_fmap (pyval * pyval)%type pyval snd d) with d.*2.
    by rewrite (IH Hd).
  - intros x Hx. change (list_fmap (pyval * pyval)%type pyval fst d) with d.*1 in Hx.
    assert (py_eqb x k = false) as Hxk by (by apply (proj1 (fresh_true d.*1 k))).
    by rewrite py_eqb_sym, Hxk.
Qed.

(** X9.  The display function of the picker, [available_itags[x]], is
    defined on every option of the picker: the picker shows the texts of
    the dictionary, in order, and none of them is empty or [None]. *)
Theorem radio_labels (formats : list format_dict) :
  mapM (pydict_get (available_itags formats)) (radio_options formats)
  = Some (available_itags formats).*2
  ∧ ∀ v, v ∈ (available_itags formats).*2 → truthy v = true.
Proof.
  split.
  - apply mapM_get_distinct, available_itags_distinct.
  - intros v Hv.
    pose proof (mapM_get_distinct _ (available_itags_distinct formats)) as Hm.
    apply mapM_Some in Hm.
    apply list_elem_of_lookup in Hv as [i Hi].
    destruct (Forall2_lookup_r _ _ _ _ _ Hm Hi) as (x & _ & Hx).
    rewrite available_itags_lookup in Hx.
    destruct (last_with_id formats x) as [f | ]; simpl in Hx; [ | done ].
    injection Hx as <-. apply resolution_label_truthy.
Qed.

(** ** The page, case by case *)

Ltac run_page :=
  cbv beta iota zeta delta
    [main main_resolution main_download st_selectbox st_text_input st_button st_radio
     open_read P_try_except P_raise st lift mbind P_bind mret P_ret]; cbn [fst snd].

Lemma download_video_returns
    (ydl : YoutubeDL) (url platform : string) (itag : pyval) (w : world) :
  ∃ r, (download_video ydl url platform itag w).1 = Ok r.
Proof.
  destruct (provisioning_outcome platform w) as [Hok | [e Hraise]].
  - destruct (download_video_provisioned ydl url platform itag w Hok) as (_ & _ & _ & ->).
    eauto.
  - destruct (download_video_provision_failed ydl url platform itag w e Hraise) as (-> & _).
    eauto.
Qed.

Lemma fetch_video_info_returns (ydl : YoutubeDL) (url : string) (w : world) :
  ∃ r, (fetch_video_info ydl url w).1 = Ok r.
Proof.
  rewrite fetch_video_info_run.
  destruct (ydl_extract_info ydl fetch_opts url false); eauto.
Qed.

Section MainCases.

Context (ydl : YoutubeDL) (ses : session).

Local Abbreviation u := (py_strip (typed_url ses)).

(** The resolution part: what it answers, shows and leaves. *)
Lemma main_resolution_cases (platform : string) (w : world) (evs : list st_event) :
  let gate := bool_decide (platform ∈ ["YouTube"; "YouTube Shorts"])
              && negb (String.eqb u EmptyString) in
  let fetched := fetch_video_info ydl u w in
  (gate = false
   ∧ main_resolution ydl ses platform (typed_url ses) (w, evs) = (Ok PyNone, (w, evs)))
  ∨ (gate = true
     ∧ ((∃ error, fetched.1 = Ok (FetchError error)
           ∧ main_resolution ydl ses platform (typed_url ses) (w, evs)
             = (Ok PyNone,
                (fetched.2, (evs ++ fetching_events ++ [StError ("Error: " +:+ error)])%list)))
        ∨ (∃ formats, fetched.1 = Ok (FetchSuccess formats)
           ∧ radio_options formats = []
           ∧ main_resolution ydl ses platform (typed_url ses) (w, evs)
             = (Ok PyNone,
                (fetched.2,
                 (evs ++ fetching_events
                  ++ [StWarning
                        "No selectable formats found; defaulting to best available quality."])
                 %list)))
        ∨ (∃ formats, fetched.1 = Ok (FetchSuccess formats)
           ∧ radio_options formats ≠ []
           ∧ main_resolution ydl ses platform (typed_url ses) (w, evs)
             = (Ok (selected_option ses (radio_options formats)),
                (fetched.2,
                 (evs ++ fetching_events
                  ++ [StRadio "Select Resolution for YouTube:" (radio_options formats)
                              (available_itags formats).*2])%list))))).
Proof.
  intros gate fetched. subst gate fetched.
  unfold main_resolution.
  destruct (bool_decide _ && negb _); [ right | left; done ].
  split; [ done | ].
  run_page.
  destruct (fetch_video_info_returns ydl u w) as [r Hr].
  destruct (fetch_video_info ydl u w) as [fr w1]. simpl in Hr. subst fr. simpl.
  destruct r as [formats | error].
  - right. destruct (available_itags formats) as [ | kv itags ] eqn:Hitags.
    + left. exists formats. split; [ done | ]. split.
      * unfold radio_options. by rewrite Hitags.
      * cbn [fst snd]. by rewrite <- !app_assoc.
    + right. exists formats. split; [ done | ]. split.
      * unfold radio_options. by rewrite Hitags.
      * pose proof (mapM_get_distinct _ (available_itags_distinct formats)) as Hlabels.
        unfold radio_options in *. rewrite Hitags in Hlabels.
        rewrite Hlabels. unfold selected_option. rewrite Hitags.
        cbn [fst snd]. by rewrite <- !app_assoc.
  - left. exists error. split; [ done | ]. cbn [fst snd]. by rewrite <- !app_assoc.
Qed.

End MainCases.

Section MainDownloadCases.

Context (ydl : YoutubeDL) (ses : session).

Local Abbreviation u := (py_strip (typed_url ses)).

(** The download part: what it shows and leaves. *)
Lemma main_download_cases (platform : string) (itag : pyval) (w : world)
    (evs : list st_event) :
  let run := main_download ydl ses platform (typed_url ses) itag (w, evs) in
  let dl := download_video ydl u platform itag w in
  (download_pressed ses = false
   ∧ run = (Ok (), (w, (evs ++ [StButton "Download Video"])%list)))
  ∨ (download_pressed ses = true ∧ u = EmptyString
     ∧ run = (Ok (), (w, (evs ++ [StButton "Download Video";
                                   StError "Please enter a valid URL."])%list)))
  ∨ (download_pressed ses = true ∧ u ≠ EmptyString
     ∧ ((∃ error, dl.1 = Ok (DownloadFailure error)
           ∧ run = (Ok (), (dl.2, (evs ++ downloading_events platform
                                    ++ [StError ("Error: " +:+ error)])%list)))
        ∨ (∃ p data, dl.1 = Ok (DownloadSuccess p)
           ∧ file_read ses (w_fs dl.2) p = Ok data
           ∧ run = (Ok (),
                    (add_log DEBUG "Rendered download button successfully." dl.2,
                     (evs ++ downloading_events platform
                      ++ [StSuccess "Video Downloaded Successfully!"; StBalloons; StVideo p;
                          StDownloadButton data DEFAULT_FILE_NAME "video/mp4"])%list)))
        ∨ (∃ p e, dl.1 = Ok (DownloadSuccess p)
           ∧ file_read ses (w_fs dl.2) p = Raise e
           ∧ run = (Ok (),
                    (add_log ERROR ("Error reading video file: " +:+ exc_str e) dl.2,
                     (evs ++ downloading_events platform
                      ++ [StSuccess "Video Downloaded Successfully!"; StBalloons; StVideo p;
                          StError ("File error: " +:+ exc_str e)])%list))))).
Proof.
  intros run dl. subst run dl. unfold main_download. run_page.
  destruct (download_pressed ses); [ right | left; done ].
  destruct (String.eqb u EmptyString) eqn:Hu.
  - left. apply String.eqb_eq in Hu. repeat split; try done.
    cbn [fst snd]. by rewrite <- !app_assoc.
  - right. apply String.eqb_neq in Hu. split; [ done | ]. split; [ done | ].
    destruct (download_video_returns ydl u platform itag w) as [r Hr].
    cbn [fst snd].
    destruct (download_video ydl u platform itag w) as [dr w1]. simpl in Hr. subst dr.
    cbn [fst snd]. destruct r as [p | error].
    + right. unfold logger_debug, logger_error. cbn [fst snd].
      destruct (file_read ses (w_fs w1) p) as [data | e] eqn:Hread.
      * left. exists p, data. repeat split; try done.
        cbn [fst snd]. by rewrite <- !app_assoc.
      * right. exists p, e. repeat split; try done.
        cbn [fst snd]. by rewrite <- !app_assoc.
    + left. exists error. split; [ done | ]. cbn [fst snd]. by rewrite <- !app_assoc.
Qed.

Lemma main_unfold (w : world) (evs : list st_event) :
  main ydl ses (w, evs)
  = match main_resolution ydl ses (selected_platform ses) (typed_url ses)
            (w, (evs ++ page_header)%list) with
    | (Ok itag, s1) => main_download ydl ses (selected_platform ses) (typed_url ses) itag s1
    | (Raise e, s1) => (Raise e, s1)
    end.
Proof.
  unfold main, st_selectbox, st_text_input, st, mbind, P_bind, mret, P_ret.
  cbn [fst snd]. unfold page_header, selected_platform.
  by rewrite <- !app_assoc.
Qed.

End MainDownloadCases.

Section MainOutcome.

Context (ydl : YoutubeDL) (ses : session).

(** Every run of the page goes one of the ways of the resolution part
    and then one of the ways of the download part. *)
Lemma main_outcome (w : world) (evs : list st_event) :
  ∃ itag w1 ev1 w2 ev2,
    main ydl ses (w, evs) = (Ok (), (w2, (evs ++ page_header ++ ev1 ++ ev2)%list))
    ∧ resolution_outcome ydl ses (selected_platform ses) w itag w1 ev1
    ∧ download_outcome ydl ses (selected_platform ses) itag w1 w2 ev2.
Proof.
  rewrite main_unfold.
  assert (∃ itag w1 ev1,
            main_resolution ydl ses (selected_platform ses) (typed_url ses)
              (w, (evs ++ page_header)%list)
            = (Ok itag, (w1, ((evs ++ page_header) ++ ev1)%list))
            ∧ resolution_outcome ydl ses (selected_platform ses) w itag w1 ev1)
    as (itag & w1 & ev1 & -> & Hres).
  { destruct (main_resolution_cases ydl ses (selected_platform ses) w
                (evs ++ page_header)%list)
      as [[Hgate ->] | [Hgate [(error & Hf & ->) | [(formats & Hf & Hnil & ->)
                                                   | (formats & Hf & Hne & ->)]]]].
    - eexists _, _, []. rewrite app_nil_r. split; [ done | by constructor ].
    - eexists _, _, _. split; [ done | by constructor ].
    - eexists _, _, _. split; [ done | by econstructor ].
    - eexists _, _, _. split; [ done | by econstructor ]. }
  exists itag, w1, ev1.
  destruct (main_download_cases ydl ses (selected_platform ses) itag w1
              ((evs ++ page_header) ++ ev1)%list)
    as [[Hp ->] | [(Hp & Hu & ->) | (Hp & Hu & [(error & Hd & ->)
                                     | [(p & data & Hd & Hread & ->)
                                       | (p & e & Hd & Hread & ->)]])]];
    eexists _, _; (split; [ by rewrite <- !app_assoc | ]); (split; [ done | ]).
  - by constructor.
  - by constructor.
  - by constructor.
  - by constructor.
  - by constructor.
Qed.

End MainOutcome.

(** ** What a run of the page leaves in the world *)

Lemma fetch_video_info_world (ydl : YoutubeDL) (url : string) (w : world) :
  w_fs (fetch_video_info ydl url w).2 = w_fs w
  ∧ w_calls (fetch_video_info ydl url w).2
    = (w_calls w ++ [CallExtractInfo fetch_opts url false])%list.
Proof.
  rewrite fetch_video_info_run.
  by destruct (ydl_extract_info ydl fetch_opts url false).
Qed.

Lemma download_video_world
    (ydl : YoutubeDL) (url platform : string) (itag : pyval) (w : world) :
  (w_calls (download_video ydl url platform itag w).2 = w_calls w
   ∧ w_fs (download_video ydl url platform itag w).2 = w_fs w
   ∧ ∃ error, (download_video ydl url platform itag w).1 = Ok (DownloadFailure error))
  ∨ (∃ fs0,
       w_calls (download_video ydl url platform itag w).2
       = (w_calls w ++ [CallDownload (download_opts platform itag) [url] fs0])%list
       ∧ (download_video ydl url platform itag w).1
         = Ok (match (ydl_download ydl (download_opts platform itag) [url] fs0).1 with
               | Some e => DownloadFailure (failure_message e)
               | None =>
                   DownloadSuccess
                     (os.path_join (dict_get DOWNLOAD_FOLDERS platform "downloads")
                                   DEFAULT_FILE_NAME)
               end)).
Proof.
  destruct (provisioning_outcome platform w) as [Hok | [e Hraise]].
  - right.
    destruct (download_video_provisioned ydl url platform itag w Hok)
      as (_ & Hcalls & _ & Hres).
    eexists. split; [ exact Hcalls | exact Hres ].
  - left.
    destruct (download_video_provision_failed ydl url platform itag w e Hraise)
      as (Hres & Hcalls & Hfs).
    repeat split; try done. by eexists.
Qed.

Section MainWorld.

Context (ydl : YoutubeDL) (ses : session).

Local Abbreviation u := (py_strip (typed_url ses)).
Local Abbreviation gate platform :=
  (bool_decide (platform ∈ ["YouTube"; "YouTube Shorts"])
   && negb (String.eqb u EmptyString)).

Lemma resolution_outcome_world (platform : string) (w w1 : world) (itag : pyval)
    (ev1 : list st_event) :
  resolution_outcome ydl ses platform w itag w1 ev1 →
  w_fs w1 = w_fs w
  ∧ w_calls w1
    = (w_calls w
       ++ if gate platform then [CallExtractInfo fetch_opts u false] else [])%list.
Proof.
  intros [Hgate | error Hgate Hf | formats Hgate Hf Hnil | formats Hgate Hf Hne];
    rewrite Hgate.
  - by rewrite app_nil_r.
  - apply fetch_video_info_world.
  - apply fetch_video_info_world.
  - apply fetch_video_info_world.
Qed.

Lemma download_outcome_world (platform : string) (itag : pyval) (w1 w2 : world)
    (ev2 : list st_event) :
  download_outcome ydl ses platform itag w1 w2 ev2 →
  (w_calls w2 = w_calls w1 ∧ w_fs w2 = w_fs w1)
  ∨ (download_pressed ses = true ∧ u ≠ EmptyString
     ∧ ∃ fs0,
         w_calls w2
         = (w_calls w1 ++ [CallDownload (download_opts platform itag) [u] fs0])%list).
Proof.
  intros [Hp | Hp Hu | error Hp Hu Hd | p data Hp Hu Hd Hread | p e Hp Hu Hd Hread];
    try (by left);
    destruct (download_video_world ydl u platform itag w1)
      as [(Hcalls & Hfs & _) | (fs0 & Hcalls & _)];
    try (by left); right; repeat split; try done; by exists fs0.
Qed.

End MainWorld.

(** ** The page as a whole *)


(** X11.  With a URL that is blank once stripped, a run of the page
    leaves the world as it is: no collaborator call, no directory, no log
    record.  It shows the header and the button and, if the button was
    pressed, the request for a valid URL. *)
Theorem main_blank_url (ydl : YoutubeDL) (ses : session) (w : world) (evs : list st_event) :
  py_strip (typed_url ses) = EmptyString →
  main ydl ses (w, evs)
  = (Ok (),
     (w, (evs ++ page_header
          ++ StButton "Download Video"
             :: if download_pressed ses then [StError "Please enter a valid URL."] else [])
         %list)).
Proof.
  intros Hblank.
  destruct (main_outcome ydl ses w evs) as (itag & w1 & ev1 & w2 & ev2 & -> & Hres & Hdl).
  assert (w1 = w ∧ ev1 = []) as [-> ->].
  { destruct Hres as [Hgate | error Hgate | formats Hgate | formats Hgate]; try done;
      rewrite Hblank, andb_false_r in Hgate; done. }
  destruct Hdl as [Hp | Hp Hu | error Hp Hu | p data Hp Hu | p e Hp Hu]; try done;
    by rewrite Hp.
Qed.

Lemma main_blank_url_witness :
  py_strip (typed_url (sample_session 0 "   " true)) = EmptyString
  ∧ main (ydl_ok [format_18; format_22]) (sample_session 0 "   " true) (empty_world, [])
    = (Ok (),
       (empty_world,
        (page_header ++ [StButton "Download Video"; StError "Please enter a valid URL."])
        %list)).
Proof.
  refine (conj eq_refl _).
  exact (main_blank_url (ydl_ok [format_18; format_22]) (sample_session 0 "   " true)
                        empty_world [] eq_refl).
Defined.

(** X12.  Unless the button is pressed, a run of the page downloads
    nothing: the file system stays as it is, and the only call the
    collaborator may get is the metadata request for the stripped URL. *)
Theorem main_without_press (ydl : YoutubeDL) (ses : session) (w : world)
    (evs : list st_event) :
  download_pressed ses = false →
  w_fs (main ydl ses (w, evs)).2.1 = w_fs w
  ∧ ∀ c, c ∈ calls_made w (main ydl ses (w, evs)).2.1 →
      c = CallExtractInfo fetch_opts (py_strip (typed_url ses)) false.
Proof.
  intros Hidle.
  destruct (main_outcome ydl ses w evs) as (itag & w1 & ev1 & w2 & ev2 & -> & Hres & Hdl).
  apply resolution_outcome_world in Hres as [Hfs1 Hcalls1].
  apply download_outcome_world in Hdl as [[Hcalls2 Hfs2] | (Hp & _)]; [ | congruence ].
  cbn [fst snd]. split; [ congruence | ].
  intros c Hc. rewrite (calls_made_app w w2 _ (eq_trans Hcalls2 Hcalls1)) in Hc.
  destruct (_ && _); [ by apply list_elem_of_singleton in Hc | by apply elem_of_nil in Hc ].
Qed.

Lemma main_without_press_witness :
  download_pressed (sample_session 0 "https://youtu.be/x" false) = false
  ∧ w_fs (main (ydl_ok [format_18; format_22]) (sample_session 0 "https://youtu.be/x" false)
               (empty_world, [])).2.1 = ∅.
Proof.
  refine (conj eq_refl _).
  exact (proj1 (main_without_press (ydl_ok [format_18; format_22])
                  (sample_session 0 "https://youtu.be/x" false) empty_world [] eq_refl)).
Defined.

Lemma events_made_app (evs new : list st_event) : events_made evs (evs ++ new) = new.
Proof. unfold events_made. by rewrite drop_app_length. Qed.

(** X13.  The calls of one run of the page.  The collaborator gets the
    metadata request exactly when the platform is YouTube or YouTube
    Shorts and the stripped URL is not empty, and after it at most one
    download request, which needs the button pressed and a stripped URL
    that is not empty.  Both name the stripped URL. *)
Theorem main_calls (ydl : YoutubeDL) (ses : session) (w : world) (evs : list st_event) :
  ∃ ex dl,
    calls_made w (main ydl ses (w, evs)).2.1 = (ex ++ dl)%list
    ∧ ex = (if bool_decide (selected_platform ses ∈ ["YouTube"; "YouTube Shorts"])
               && negb (String.eqb (py_strip (typed_url ses)) EmptyString)
            then [CallExtractInfo fetch_opts (py_strip (typed_url ses)) false] else [])
    ∧ (dl = []
       ∨ (download_pressed ses = true
          ∧ py_strip (typed_url ses) ≠ EmptyString
          ∧ ∃ opts fs0, dl = [CallDownload opts [py_strip (typed_url ses)] fs0])).
Proof.
  destruct (main_outcome ydl ses w evs) as (itag & w1 & ev1 & w2 & ev2 & -> & Hres & Hdl).
  apply resolution_outcome_world in Hres as [_ Hcalls1].
  cbn [fst snd].
  apply download_outcome_world in Hdl as [[Hcalls2 _] | (Hp & Hu & fs0 & Hcalls2)].
  - eexists _, []. split; [ | split; [ reflexivity | by left ] ].
    apply calls_made_app. rewrite app_nil_r. congruence.
  - eexists _, _. split; [ | split; [ reflexivity | right ] ].
    + apply calls_made_app. rewrite Hcalls2, Hcalls1. by rewrite <- app_assoc.
    + repeat split; try done. by eexists _, _.
Qed.

Section MainEvents.

Context (ydl : YoutubeDL) (ses : session).

Local Abbreviation u := (py_strip (typed_url ses)).

Ltac in_list H :=
  repeat (apply elem_of_app in H as [H | H] || apply elem_of_cons in H as [H | H]);
  try (by apply elem_of_nil in H); try discriminate H.

Lemma page_header_no_radio (label : string) (options labels : list pyval) :
  StRadio label options labels ∉ page_header.
Proof. intros H. unfold page_header in H. in_list H. Qed.

Lemma resolution_outcome_radio (platform : string) (w w1 : world) (itag : pyval)
    (ev1 : list st_event) :
  resolution_outcome ydl ses platform w itag w1 ev1 →
  (itag = PyNone ∧ ∀ label options labels, StRadio label options labels ∉ ev1)
  ∨ (∃ formats,
       itag = selected_option ses (radio_options formats)
       ∧ (∀ label options labels,
            StRadio label options labels ∈ ev1 → options = radio_options formats)
       ∧ StRadio "Select Resolution for YouTube:" (radio_options formats)
                 (available_itags formats).*2 ∈ ev1
       ∧ (platform = "YouTube" ∨ platform = "YouTube Shorts")).
Proof.
  intros [Hgate | error Hgate Hf | formats Hgate Hf Hnil | formats Hgate Hf Hne].
  - left. split; [ done | ]. intros l o ls H. by apply elem_of_nil in H.
  - left. split; [ done | ]. intros l o ls H. unfold fetching_events in H. in_list H.
  - left. split; [ done | ]. intros l o ls H. unfold fetching_events in H. in_list H.
  - right. exists formats. split; [ done | ]. split; [ | split ].
    + intros l o ls H. unfold fetching_events in H. in_list H. by injection H.
    + apply elem_of_app. right. apply list_elem_of_here.
    + apply andb_true_iff in Hgate as [Hplat _]. apply bool_decide_eq_true in Hplat.
      in_list Hplat; auto.
Qed.

Lemma download_outcome_no_radio (platform : string) (itag : pyval) (w1 w2 : world)
    (ev2 : list st_event) (label : string) (options labels : list pyval) :
  download_outcome ydl ses platform itag w1 w2 ev2 →
  StRadio label options labels ∉ ev2.
Proof.
  intros [Hp | Hp Hu | error Hp Hu Hd | p data Hp Hu Hd Hread | p e Hp Hu Hd Hread] H;
    unfold downloading_events in H; in_list H.
Qed.

(** The download request of a run, if there is one, is the one
    [download_video] makes for the selector left by the resolution
    part. *)
Lemma main_outcome_download_call (platform : string) (w w1 w2 : world) (itag : pyval)
    (ev1 ev2 : list st_event) (opts : ydl_opts_t) (urls : list string) (fs0 : gset string) :
  resolution_outcome ydl ses platform w itag w1 ev1 →
  download_outcome ydl ses platform itag w1 w2 ev2 →
  CallDownload opts urls fs0 ∈ calls_made w w2 →
  opts = download_opts platform itag
  ∧ urls = [u]
  ∧ w_calls (download_video ydl u platform itag w1).2
    = (w_calls w1 ++ [CallDownload opts urls fs0])%list
  ∧ w_fs w2 = w_fs (download_video ydl u platform itag w1).2
  ∧ ev2 ≠ [StButton "Download Video"]
  ∧ ev2 ≠ [StButton "Download Video"; StError "Please enter a valid URL."].
Proof.
  intros Hres Hdl Hcall.
  apply resolution_outcome_world in Hres as [_ Hcalls1].
  set (ex := if _ && _ then _ else _) in Hcalls1.
  assert (CallDownload opts urls fs0 ∉ ex) as Hex.
  { subst ex. intros H. destruct (_ && _); in_list H. }
  assert (∀ new, w_calls w2 = (w_calls w1 ++ new)%list →
            CallDownload opts urls fs0 ∈ new) as Hnew.
  { intros new Hcalls2.
    rewrite (calls_made_app w w2 (ex ++ new)) in Hcall
      by (rewrite Hcalls2, Hcalls1; by rewrite <- app_assoc).
    apply elem_of_app in Hcall as [Hcall | Hcall]; done. }
  assert (∀ w', w_calls w' = w_calls w1 → w_calls w2 = w_calls w' → False) as Hsame.
  { intros w' Hw' Hw2. specialize (Hnew []). rewrite app_nil_r in Hnew.
    assert (CallDownload opts urls fs0 ∈ []) as H by (apply Hnew; congruence).
    by apply elem_of_nil in H. }
  destruct Hdl as [Hp | Hp Hu | error Hp Hu Hd | p data Hp Hu Hd Hread | p e Hp Hu Hd Hread];
    try (exfalso; by apply (Hsame w1));
    (destruct (download_video_world ydl u platform itag w1)
       as [(Hcalls & _ & _) | (fs1 & Hcalls & _)];
     [ exfalso; by apply (Hsame (download_video ydl u platform itag w1).2)
     | specialize (Hnew _ Hcalls); apply list_elem_of_singleton in Hnew;
       injection Hnew as -> -> ->;
       repeat split; try done; unfold downloading_events; simpl; discriminate ]).
Qed.

End MainEvents.

Section MainTheorems.

Context (ydl : YoutubeDL) (ses : session).

Local Abbreviation u := (py_strip (typed_url ses)).

Ltac in_list H :=
  repeat (apply elem_of_app in H as [H | H] || apply elem_of_cons in H as [H | H]);
  try (by apply elem_of_nil in H); try discriminate H.

(** Before the download part, the page shows neither a success nor a
    video nor a save button. *)
Lemma before_download_quiet (platform : string) (w w1 : world) (itag : pyval)
    (ev1 : list st_event) (e : st_event) :
  resolution_outcome ydl ses platform w itag w1 ev1 →
  e ∈ (page_header ++ ev1)%list →
  (∀ body, e ≠ StSuccess body) ∧ (∀ p, e ≠ StVideo p)
  ∧ (∀ data fn mime, e ≠ StDownloadButton data fn mime).
Proof.
  intros Hres He.
  destruct Hres as [Hgate | error Hgate Hf | formats Hgate Hf Hnil | formats Hgate Hf Hne];
    unfold page_header, fetching_events in He; in_list He; subst e; done.
Qed.

(** X14.  What a run of the page asks the collaborator to download.  If
    the run showed the resolution picker, the format specifier of the
    download request is [get_format_string] of the option selected in
    it.  If it showed no picker (another platform, a failed metadata
    request, no format with an identifier), the specifier is ["best"]. *)
Theorem main_download_format (w : world) (evs : list st_event)
    (opts : ydl_opts_t) (urls : list string) (fs0 : gset string) :
  CallDownload opts urls fs0 ∈ calls_made w (main ydl ses (w, evs)).2.1 →
  (∀ label options labels,
     StRadio label options labels ∈ events_made evs (main ydl ses (w, evs)).2.2 →
     opts !! "format" = Some (OStr (get_format_string (selected_option ses options))))
  ∧ ((∀ label options labels,
        StRadio label options labels ∉ events_made evs (main ydl ses (w, evs)).2.2) →
     opts !! "format" = Some (OStr "best")).
Proof.
  destruct (main_outcome ydl ses w evs) as (itag & w1 & ev1 & w2 & ev2 & -> & Hres & Hdl).
  cbn [fst snd]. rewrite events_made_app. intros Hcall.
  destruct (main_outcome_download_call ydl ses _ _ _ _ _ _ _ _ _ _ Hres Hdl Hcall)
    as (-> & _).
  rewrite download_opts_format.
  destruct (resolution_outcome_radio ydl ses _ _ _ _ _ Hres)
    as [[-> Hnone] | (formats & -> & Honly & Hshown & Hplat)].
  - split.
    + intros label options labels H.
      apply elem_of_app in H as [H | H]; [ by apply page_header_no_radio in H | ].
      apply elem_of_app in H as [H | H]; [ by apply Hnone in H | ].
      by apply (download_outcome_no_radio ydl ses _ _ _ _ _ _ _ _ Hdl) in H.
    + intros _. rewrite (bool_decide_eq_false_2 (PyNone ≠ PyNone)) by (by intros H).
      by rewrite andb_false_r.
  - split.
    + intros label options labels H.
      apply elem_of_app in H as [H | H]; [ by apply page_header_no_radio in H | ].
      apply elem_of_app in H as [H | H];
        [ | by apply (download_outcome_no_radio ydl ses _ _ _ _ _ _ _ _ Hdl) in H ].
      rewrite (Honly _ _ _ H). rewrite bool_decide_eq_true_2 by done. simpl.
      case_bool_decide as Hitag; [ done | ].
      assert (selected_option ses (radio_options formats) = PyNone) as ->; [ | done ].
      destruct (decide (selected_option ses (radio_options formats) = PyNone)); [ done | ].
      by destruct Hitag.
    + intros Hnever. exfalso. eapply Hnever.
      apply elem_of_app. right. apply elem_of_app. left. exact Hshown.
Qed.

(** X15.  The save button.  A run of the page offers the save button
    only after a download request that raised nothing; the button is for
    the file name ["Untitled.mp4"] and type ["video/mp4"], and its data
    are what was read from the path the collaborator was asked to write
    to, the same path the video player is given. *)
Theorem main_save_button (w : world) (evs : list st_event) (data fn mime : string) :
  StDownloadButton data fn mime ∈ events_made evs (main ydl ses (w, evs)).2.2 →
  fn = DEFAULT_FILE_NAME ∧ mime = "video/mp4"
  ∧ ∃ opts fs0 p,
      CallDownload opts [u] fs0 ∈ calls_made w (main ydl ses (w, evs)).2.1
      ∧ (ydl_download ydl opts [u] fs0).1 = None
      ∧ opts !! "outtmpl" = Some (OStr p)
      ∧ file_read ses (w_fs (main ydl ses (w, evs)).2.1) p = Ok data
      ∧ StVideo p ∈ events_made evs (main ydl ses (w, evs)).2.2.
Proof.
  destruct (main_outcome ydl ses w evs) as (itag & w1 & ev1 & w2 & ev2 & -> & Hres & Hdl).
  cbn [fst snd]. rewrite events_made_app. intros Hbtn.
  rewrite app_assoc in Hbtn. apply elem_of_app in Hbtn as [Hbtn | Hbtn].
  { destruct (before_download_quiet _ _ _ _ _ _ Hres Hbtn) as (_ & _ & Hno).
    by destruct (Hno data fn mime). }
  pose proof (resolution_outcome_world ydl ses _ _ _ _ _ Hres) as [_ Hcalls1].
  destruct Hdl as [Hp | Hp Hu | error Hp Hu Hd | p data' Hp Hu Hd Hread | p e Hp Hu Hd Hread];
    unfold downloading_events in Hbtn; in_list Hbtn.
  injection Hbtn as -> -> ->. split; [ done | ]. split; [ done | ].
  destruct (download_video_world ydl u (selected_platform ses) itag w1)
    as [(_ & _ & error & Hfail) | (fs1 & Hcalls & Hres1)]; [ congruence | ].
  rewrite Hd in Hres1.
  destruct (ydl_download ydl _ [u] fs1).1 as [e | ] eqn:Hanswer; [ congruence | ].
  injection Hres1 as ->.
  eexists (download_opts (selected_platform ses) itag), fs1, _.
  split; [ | split; [ exact Hanswer | split; [ | split ] ] ].
  - unfold calls_made. cbn [add_log w_calls]. rewrite Hcalls, Hcalls1.
    rewrite <- app_assoc, drop_app_length.
    apply elem_of_app. right. apply list_elem_of_here.
  - unfold download_opts. by simplify_map_eq.
  - exact Hread.
  - apply elem_of_app. right. apply elem_of_app. right.
    unfold downloading_events. do 5 apply list_elem_of_further. apply list_elem_of_here.
Qed.

(** X16.  Failures are shown.  When the metadata request of a run raised,
    the page shows ["Error: "] followed by the text of the exception.
    When the download request of a run raised, the last thing the page
    shows is ["Error: "] followed by the message [download_video]
    reports, and it shows no success. *)
Theorem main_shows_errors (w : world) (evs : list st_event) :
  (∀ opts url d e,
     CallExtractInfo opts url d ∈ calls_made w (main ydl ses (w, evs)).2.1 →
     ydl_extract_info ydl opts url d = Raise e →
     StError ("Error: " +:+ exc_str e) ∈ events_made evs (main ydl ses (w, evs)).2.2)
  ∧ (∀ opts urls fs0 e,
       CallDownload opts urls fs0 ∈ calls_made w (main ydl ses (w, evs)).2.1 →
       (ydl_download ydl opts urls fs0).1 = Some e →
       last (events_made evs (main ydl ses (w, evs)).2.2)
       = Some (StError ("Error: "
                        +:+ (if is_DownloadError e then "Download error: " +:+ exc_str e
                             else "Exception in download_video: " +:+ exc_str e)))
       ∧ ∀ body, StSuccess body ∉ events_made evs (main ydl ses (w, evs)).2.2).
Proof.
  destruct (main_outcome ydl ses w evs) as (itag & w1 & ev1 & w2 & ev2 & -> & Hres & Hdl).
  cbn [fst snd]. rewrite events_made_app. split.
  - intros opts url d e Hcall Hraise.
    pose proof (resolution_outcome_world ydl ses _ _ _ _ _ Hres) as [_ Hcalls1].
    assert (CallExtractInfo opts url d
              ∈ (if bool_decide (selected_platform ses ∈ ["YouTube"; "YouTube Shorts"])
                    && negb (String.eqb u EmptyString)
                 then [CallExtractInfo fetch_opts u false] else [])) as Hex.
    { destruct (download_outcome_world ydl ses _ _ _ _ _ Hdl)
        as [[Hcalls2 _] | (_ & _ & fs1 & Hcalls2)].
      - rewrite (calls_made_app w w2 _ (eq_trans Hcalls2 Hcalls1)) in Hcall. exact Hcall.
      - rewrite (calls_made_app w w2 (_ ++ [_])) in Hcall
          by (rewrite Hcalls2, Hcalls1; by rewrite <- app_assoc).
        apply elem_of_app in Hcall as [Hcall | Hcall]; [ exact Hcall | in_list Hcall ]. }
    pose proof (fetch_video_info_run ydl u w) as Hrun. cbv zeta in Hrun.
    destruct Hres as [Hgate | error Hgate Hf | formats Hgate Hf Hnil | formats Hgate Hf Hne];
      rewrite Hgate in Hex; in_list Hex; injection Hex as -> -> ->;
      rewrite Hraise in Hrun; rewrite Hrun in Hf; try discriminate Hf.
    injection Hf as <-.
    apply elem_of_app. right. apply elem_of_app. left.
    apply elem_of_app. right. apply list_elem_of_here.
  - intros opts urls fs0 e Hcall Hanswer.
    destruct (main_outcome_download_call ydl ses _ _ _ _ _ _ _ _ _ _ Hres Hdl Hcall)
      as (-> & -> & Hcalls & _ & Hne1 & Hne2).
    destruct (download_video_world ydl u (selected_platform ses) itag w1)
      as [(Hsame & _) | (fs1 & Hcalls' & Hres1)].
    { rewrite Hsame in Hcalls. apply (f_equal length) in Hcalls.
      rewrite length_app in Hcalls. simpl in Hcalls. lia. }
    rewrite Hcalls in Hcalls'. apply app_inv_head in Hcalls'. injection Hcalls' as <-.
    rewrite Hanswer in Hres1.
    destruct Hdl as [Hp | Hp Hu | error Hp Hu Hd | p data Hp Hu Hd Hread
                    | p e' Hp Hu Hd Hread]; try done; try congruence.
    rewrite Hres1 in Hd. injection Hd as <-. split.
    + rewrite !app_assoc. apply last_snoc.
    + intros body H. rewrite app_assoc in H. apply elem_of_app in H as [H | H].
      * destruct (before_download_quiet _ _ _ _ _ _ Hres H) as (Hno & _).
        by destruct (Hno body).
      * unfold downloading_events in H. in_list H.
Qed.

End MainTheorems.

(** ** The properties on sample runs *)

Lemma radio_labels_witness :
  PyStr "720p" ∈ (available_itags [format_18; format_22]).*2
  ∧ truthy (PyStr "720p") = true.
Proof.
  assert (PyStr "720p" ∈ (available_itags [format_18; format_22]).*2) as Hin.
  { rewrite radio_options_of_two_formats. apply list_elem_of_further, list_elem_of_here. }
  refine (conj Hin _).
  exact (proj2 (radio_labels [format_18; format_22]) _ Hin).
Defined.

Lemma download_video_success_iff_witness :
  (∃ p, (download_video (ydl_ok []) "https://youtu.be/x" "YouTube" (PyInt 22)
                        empty_world).1 = Ok (DownloadSuccess p))
  ∧ ∃ opts urls fs0,
      calls_made empty_world
        (download_video (ydl_ok []) "https://youtu.be/x" "YouTube" (PyInt 22) empty_world).2
      = [CallDownload opts urls fs0]
      ∧ (ydl_download (ydl_ok []) opts urls fs0).1 = None.
Proof.
  assert (∃ p, (download_video (ydl_ok []) "https://youtu.be/x" "YouTube" (PyInt 22)
                               empty_world).1 = Ok (DownloadSuccess p)) as Hok.
  { eexists. exact download_youtube_22. }
  refine (conj Hok _).
  exact (proj1 (download_video_success_iff
                  (ydl_ok []) "https://youtu.be/x" "YouTube" (PyInt 22) empty_world) Hok).
Defined.

Lemma sample_run_calls :
  calls_made empty_world
    (main (ydl_ok [format_18; format_22]) (sample_session 0 " https://youtu.be/x " true)
          (empty_world, [])).2.1
  = [CallExtractInfo fetch_opts "https://youtu.be/x" false;
     CallDownload (download_opts "YouTube" (PyStr "22")) ["https://youtu.be/x"]
                  {[ "youtube_video" ]}].
Proof. vm_compute. reflexivity. Qed.

Lemma sample_run_events :
  events_made []
    (main (ydl_ok [format_18; format_22]) (sample_session 0 " https://youtu.be/x " true)
          (empty_world, [])).2.2
  = (page_header ++ fetching_events
     ++ [StRadio "Select Resolution for YouTube:" [PyStr "18"; PyStr "22"]
                 [PyStr "640x360"; PyStr "720p"]]
     ++ downloading_events "YouTube"
     ++ [StSuccess "Video Downloaded Successfully!"; StBalloons;
         StVideo "youtube_video/Untitled.mp4";
         StDownloadButton "video" "Untitled.mp4" "video/mp4"])%list.
Proof. vm_compute. reflexivity. Qed.

Lemma main_download_format_witness :
  CallDownload (download_opts "YouTube" (PyStr "22")) ["https://youtu.be/x"]
               {[ "youtube_video" ]}
    ∈ calls_made empty_world
        (main (ydl_ok [format_18; format_22]) (sample_session 0 " https://youtu.be/x " true)
              (empty_world, [])).2.1
  ∧ StRadio "Select Resolution for YouTube:" [PyStr "18"; PyStr "22"]
            [PyStr "640x360"; PyStr "720p"]
    ∈ events_made []
        (main (ydl_ok [format_18; format_22]) (sample_session 0 " https://youtu.be/x " true)
              (empty_world, [])).2.2
  ∧ download_opts "YouTube" (PyStr "22") !! "format" = Some (OStr "best").
Proof.
  assert (CallDownload (download_opts "YouTube" (PyStr "22")) ["https://youtu.be/x"]
                       {[ "youtube_video" ]}
            ∈ calls_made empty_world
                (main (ydl_ok [format_18; format_22])
                      (sample_session 0 " https://youtu.be/x " true)
                      (empty_world, [])).2.1) as Hcall.
  { rewrite sample_run_calls. apply list_elem_of_further, list_elem_of_here. }
  assert (StRadio "Select Resolution for YouTube:" [PyStr "18"; PyStr "22"]
                  [PyStr "640x360"; PyStr "720p"]
            ∈ events_made []
                (main (ydl_ok [format_18; format_22])
                      (sample_session 0 " https://youtu.be/x " true)
                      (empty_world, [])).2.2) as Hradio.
  { rewrite sample_run_events. unfold page_header, fetching_events.
    do 6 apply list_elem_of_further. apply list_elem_of_here. }
  refine (conj Hcall (conj Hradio _)).
  exact (proj1 (main_download_format _ _ _ _ _ _ _ Hcall) _ _ _ Hradio).
Defined.

Lemma main_save_button_witness :
  StDownloadButton "video" "Untitled.mp4" "video/mp4"
    ∈ events_made []
        (main (ydl_ok [format_18; format_22]) (sample_session 0 " https://youtu.be/x " true)
              (empty_world, [])).2.2
  ∧ "Untitled.mp4" = DEFAULT_FILE_NAME.
Proof.
  assert (StDownloadButton "video" "Untitled.mp4" "video/mp4"
            ∈ events_made []
                (main (ydl_ok [format_18; format_22])
                      (sample_session 0 " https://youtu.be/x " true)
                      (empty_world, [])).2.2) as Hbtn.
  { rewrite sample_run_events. unfold page_header, fetching_events, downloading_events.
    do 13 apply list_elem_of_further. apply list_elem_of_here. }
  refine (conj Hbtn _).
  exact (proj1 (main_save_button _ _ _ _ _ _ _ Hbtn)).
Defined.

Lemma failing_run_calls :
  calls_made empty_world
    (main (ydl_raising (Exc DownloadError "ERROR: Unsupported URL: not-a-url"))
          (sample_session 2 "not-a-url" true) (empty_world, [])).2.1
  = [CallDownload (download_opts "X" PyNone) ["not-a-url"] {[ "x_video" ]}].
Proof. vm_compute. reflexivity. Qed.

Lemma main_shows_errors_witness :
  CallDownload (download_opts "X" PyNone) ["not-a-url"] {[ "x_video" ]}
    ∈ calls_made empty_world
        (main (ydl_raising (Exc DownloadError "ERROR: Unsupported URL: not-a-url"))
              (sample_session 2 "not-a-url" true) (empty_world, [])).2.1
  ∧ (ydl_download (ydl_raising (Exc DownloadError "ERROR: Unsupported URL: not-a-url"))
                  (download_opts "X" PyNone) ["not-a-url"] {[ "x_video" ]}).1
    = Some (Exc DownloadError "ERROR: Unsupported URL: not-a-url")
  ∧ last (events_made []
            (main (ydl_raising (Exc DownloadError "ERROR: Unsupported URL: not-a-url"))
                  (sample_session 2 "not-a-url" true) (empty_world, [])).2.2)
    = Some (StError "Error: Download error: ERROR: Unsupported URL: not-a-url").
Proof.
  assert (CallDownload (download_opts "X" PyNone) ["not-a-url"] {[ "x_video" ]}
            ∈ calls_made empty_world
                (main (ydl_raising (Exc DownloadError "ERROR: Unsupported URL: not-a-url"))
                      (sample_session 2 "not-a-url" true) (empty_world, [])).2.1) as Hcall.
  { rewrite failing_run_calls. apply list_elem_of_here. }
  refine (conj Hcall (conj eq_refl _)).
  exact (proj1 (proj2 (main_shows_errors
                         (ydl_raising (Exc DownloadError "ERROR: Unsupported URL: not-a-url"))
                         (sample_session 2 "not-a-url" true) empty_world [])
                      _ _ _ _ Hcall eq_refl)).
Defined.
